(** * Excel Insight Wizard: the wizard state machine and its relational merge

    A shallow embedding of [streamlit_app.py]: the three-step wizard
    (upload, relate, visualize), its session state, and the contract of the
    join it delegates to [pd.merge]. *)

From Stdlib Require Import String List ZArith Bool Lia PeanoNat.
From Stdlib Require Import Permutation.
Import ListNotations.
Local Open Scope string_scope.
Local Open Scope list_scope.

(* ================================================================== *)
(** * Tabular data *)

(** A cell of a sheet: the tagged variant of the data model (absent, number,
    text, boolean, date). *)
Inductive Value : Type :=
| VNull
| VNum (n : Z)
| VText (s : string)
| VBool (b : bool)
| VDate (d : Z).

Inductive Kind : Type := KNum | KText | KBool | KDate.

Definition kind_of (v : Value) : option Kind :=
  match v with
  | VNull => None
  | VNum _ => Some KNum
  | VText _ => Some KText
  | VBool _ => Some KBool
  | VDate _ => Some KDate
  end.

Definition kind_eqb (a b : Kind) : bool :=
  match a, b with
  | KNum, KNum | KText, KText | KBool, KBool | KDate, KDate => true
  | _, _ => false
  end.

(** Equality of cells: numbers by value, text by exact match, never across
    kinds. *)
Definition value_eqb (a b : Value) : bool :=
  match a, b with
  | VNull, VNull => true
  | VNum x, VNum y => Z.eqb x y
  | VText x, VText y => String.eqb x y
  | VBool x, VBool y => Bool.eqb x y
  | VDate x, VDate y => Z.eqb x y
  | _, _ => false
  end.

Definition Row : Type := list Value.

(** A [pandas.DataFrame]: the column labels and the rows, in order. *)
Record DataFrame : Type := mkDataFrame {
  columns : list string;
  rows : list Row
}.

Definition empty_frame : DataFrame := mkDataFrame [] [].

(** Every row has one cell per column. *)
Definition well_formed (df : DataFrame) : Prop :=
  Forall (fun r => length r = length (columns df)) (rows df).

(** [df.to_dict('records')]: each row as a mapping from column name to
    value. *)
Definition to_records (df : DataFrame) : list (list (string * Value)) :=
  map (fun r => combine (columns df) r) (rows df).

(* ================================================================== *)
(** * The join engine

    The script joins two sheets with [pd.merge]. The definitions of this
    part give that call its contract: the rows of each join kind, the column
    labels of the result, and when the call raises. *)

(** The [how] argument of the merge: "inner", "left", "right", "outer". *)
Inductive JoinKind : Type := Inner | LeftJoin | RightJoin | Outer.

Inductive PyExn : Type :=
| KeyError
| ValueError
| MergeError
| ExcelError.

(** The result of a call that may raise. *)
Inductive PyResult (A : Type) : Type :=
| Returned (a : A)
| Raised (e : PyExn).
Arguments Returned {A} a.
Arguments Raised {A} e.

Fixpoint index_of (c : string) (cols : list string) : option nat :=
  match cols with
  | [] => None
  | x :: rest =>
      if String.eqb x c then Some 0%nat else option_map S (index_of c rest)
  end.

Definition cell (i : nat) (r : Row) : Value := nth i r VNull.

Definition remove_nth {A : Type} (i : nat) (l : list A) : list A :=
  firstn i l ++ skipn (S i) l.

Fixpoint set_nth {A : Type} (i : nat) (v : A) (l : list A) : list A :=
  match l, i with
  | [], _ => []
  | _ :: t, O => v :: t
  | x :: t, S j => x :: set_nth j v t
  end.

Definition mem (c : string) (l : list string) : bool := existsb (String.eqb c) l.

(** The kinds of the non-null cells of column [i]. *)
Definition key_kinds (i : nat) (rs : list Row) : list Kind :=
  flat_map (fun r => match kind_of (cell i r) with
                     | Some k => [k]
                     | None => []
                     end) rs.

(** Two key columns are incompatible when both hold data and no kind of the
    one occurs in the other: no pair of cells could ever match. *)
Definition kinds_incompatible (ks1 ks2 : list Kind) : bool :=
  match ks1, ks2 with
  | [], _ | _, [] => false
  | _, _ => forallb (fun k => negb (existsb (kind_eqb k) ks2)) ks1
  end.

Section Join.
(** The two tables, the positions [li] and [ri] of the key columns, and
    whether the two key columns carry the same label (in which case the
    output has that column once). *)
Variables (left right : DataFrame) (li ri : nat) (same_key : bool).

Definition right_part (r : Row) : Row :=
  if same_key then remove_nth ri r else r.

Definition right_width : nat :=
  if same_key then Nat.pred (length (columns right))
  else length (columns right).

Definition matches (l r : Row) : bool := value_eqb (cell li l) (cell ri r).

(** A left row paired with a matching right row. *)
Definition paired (l r : Row) : Row := l ++ right_part r.

(** An unmatched left row: the right-side columns are null-filled. *)
Definition left_only (l : Row) : Row := l ++ repeat VNull right_width.

(** An unmatched right row: the left-side columns are null-filled; a
    shared key column keeps the right key. *)
Definition right_only (r : Row) : Row :=
  let blank := repeat VNull (length (columns left)) in
  (if same_key then set_nth li (cell ri r) blank else blank) ++ right_part r.

Definition inner_rows : list Row :=
  flat_map (fun l => map (paired l) (filter (matches l) (rows right)))
           (rows left).

Definition left_rows : list Row :=
  flat_map (fun l => match filter (matches l) (rows right) with
                     | [] => [left_only l]
                     | ms => map (paired l) ms
                     end) (rows left).

Definition right_rows : list Row :=
  flat_map (fun r => match filter (fun l => matches l r) (rows left) with
                     | [] => [right_only r]
                     | ms => map (fun l => paired l r) ms
                     end) (rows right).

Definition outer_rows : list Row :=
  left_rows
  ++ map right_only
       (filter (fun r => negb (existsb (fun l => matches l r) (rows left)))
               (rows right)).

Definition joined_rows (how : JoinKind) : list Row :=
  match how with
  | Inner => inner_rows
  | LeftJoin => left_rows
  | RightJoin => right_rows
  | Outer => outer_rows
  end.
End Join.

(** Column labels of the output: left columns then right columns (without a
    shared key column); a label present on both sides, other than a shared
    key, is suffixed [_x] on the left and [_y] on the right, the defaults of
    [pd.merge]. *)
Definition merged_columns (lcols rcols : list string) (lkey rkey : string)
  : list string :=
  let same := String.eqb lkey rkey in
  let shared c := mem c lcols && mem c rcols
                  && negb (same && String.eqb c lkey) in
  let ri := match index_of rkey rcols with Some i => i | None => 0%nat end in
  map (fun c => if shared c then String.append c "_x" else c) lcols
  ++ map (fun c => if shared c then String.append c "_y" else c)
       (if same then remove_nth ri rcols else rcols).

(** Modelled from the spec: [pd.merge(left, right, left_on=, right_on=, how=)]
    is pandas code and not part of this repository; this is the contract of
    the Join Engine ([merge(left, right, leftKey, rightKey, kind)]): both key
    columns must exist, key columns of incompatible kinds are a merge error,
    and the rows are those of the four join kinds, with the full cross
    product of the matching rows of a key value. *)
Definition merge (left right : DataFrame) (left_on right_on : option string)
  (how : JoinKind) : PyResult DataFrame :=
  match left_on, right_on with
  | Some lkey, Some rkey =>
      match index_of lkey (columns left), index_of rkey (columns right) with
      | Some li, Some ri =>
          if kinds_incompatible (key_kinds li (rows left))
                                (key_kinds ri (rows right))
          then Raised ValueError
          else Returned
                 (mkDataFrame
                    (merged_columns (columns left) (columns right) lkey rkey)
                    (joined_rows left right li ri (String.eqb lkey rkey) how))
      | _, _ => Raised KeyError
      end
  | _, _ => Raised MergeError
  end.

Definition returned {A : Type} (res : PyResult A) : option A :=
  match res with
  | Returned a => Some a
  | Raised _ => None
  end.

(** How many rows hold [k] in column [i]. *)
Definition count_key (i : nat) (k : Value) (rs : list Row) : nat :=
  length (filter (fun r => value_eqb (cell i r) k) rs).

(** The rows of a table that find no partner in the other table. *)
Definition unmatched_left (left right : DataFrame) (li ri : nat) : list Row :=
  filter (fun l => negb (existsb (fun r => matches li ri l r) (rows right)))
         (rows left).

Definition unmatched_right (left right : DataFrame) (li ri : nat) : list Row :=
  filter (fun r => negb (existsb (fun l => matches li ri l r) (rows left)))
         (rows right).

(** The null-filled rows a join kind adds to the matched pairs: none for
    [inner], the unmatched left rows for [left], the unmatched right rows for
    [right], both for [outer]. *)
Definition fill_rows (left right : DataFrame) (li ri : nat) (same_key : bool)
  (how : JoinKind) : list Row :=
  match how with
  | Inner => []
  | LeftJoin => map (left_only right same_key) (unmatched_left left right li ri)
  | RightJoin =>
      map (right_only left li ri same_key) (unmatched_right left right li ri)
  | Outer =>
      map (left_only right same_key) (unmatched_left left right li ri)
      ++ map (right_only left li ri same_key)
           (unmatched_right left right li ri)
  end.

(** Where the right key stands in an output row: in the shared key column,
    or after the left columns. *)
Definition right_key_position (left : DataFrame) (li ri : nat)
  (same_key : bool) : nat :=
  if same_key then li else (length (columns left) + ri)%nat.

(** How many rows hold [k] in both key positions [i] and [j]. *)
Definition count_matched (i j : nat) (k : Value) (rs : list Row) : nat :=
  length (filter (fun r => value_eqb (cell i r) k && value_eqb (cell j r) k)
                 rs).

(** The tables of the join-correctness example. *)
Definition example_left : DataFrame :=
  mkDataFrame ["id"; "a"] [[VNum 1; VText "x"]; [VNum 2; VText "y"]].
Definition example_right : DataFrame :=
  mkDataFrame ["id"; "b"] [[VNum 1; VText "p"]; [VNum 3; VText "q"]].

(** The tables of the row-multiplicity example. *)
Definition dup_left : DataFrame :=
  mkDataFrame ["key"; "a"] [[VNum 5; VText "u"]; [VNum 5; VText "v"]].
Definition dup_right : DataFrame :=
  mkDataFrame ["key"; "b"] [[VNum 5; VText "w"]].


(* ================================================================== *)
(** * Python objects: dictionaries and the heap of data frames *)

(** A [dict] with string keys: insertion ordered, one entry per key. *)
Definition Dict (V : Type) : Type := list (string * V).

Fixpoint dict_get {V : Type} (k : string) (d : Dict V) : option V :=
  match d with
  | [] => None
  | (k', v) :: rest => if String.eqb k' k then Some v else dict_get k rest
  end.

(** [d[k] = v]: an existing key keeps its position, a new key goes last. *)
Fixpoint dict_set {V : Type} (k : string) (v : V) (d : Dict V) : Dict V :=
  match d with
  | [] => [(k, v)]
  | (k', v') :: rest =>
      if String.eqb k' k then (k', v) :: rest else (k', v') :: dict_set k v rest
  end.

Definition dict_keys {V : Type} (d : Dict V) : list string := map fst d.

(** [{k: v for (k, v) in items}] *)
Definition dict_of {V : Type} (items : list (string * V)) : Dict V :=
  fold_left (fun d kv => dict_set (fst kv) (snd kv) d) items [].

(** Data frames are objects: the session holds references to them, and two
    names may denote the same frame. *)
Definition Ref : Type := nat.
Definition Heap : Type := list DataFrame.

Definition deref (h : Heap) (r : Ref) : DataFrame := nth r h empty_frame.

(** A newly built frame gets a reference no existing name holds. *)
Definition alloc (df : DataFrame) (h : Heap) : Ref * Heap :=
  (length h, h ++ [df]).

(* ================================================================== *)
(** * Session state and the Streamlit script monad *)

(** [st.session_state]: the keys [step], [dataframes], [final_df]. *)
Record SessionState : Type := mkSession {
  step : Z;
  dataframes : Dict Ref;
  final_df : option Ref
}.

(** Lines 16-21: the values a new session starts with. *)
Definition initial_session : SessionState := mkSession 1 [] None.

Inductive Button : Type :=
| NextBuildRelationships
| MergeSheets
| BackButton
| SkipMerge
| NextVisualize
| StartOver.

Definition button_eqb (a b : Button) : bool :=
  match a, b with
  | NextBuildRelationships, NextBuildRelationships
  | MergeSheets, MergeSheets
  | BackButton, BackButton
  | SkipMerge, SkipMerge
  | NextVisualize, NextVisualize
  | StartOver, StartOver => true
  | _, _ => false
  end.

(** The external collaborators: the spreadsheet reader ([pd.ExcelFile] and
    [xls.parse] of every sheet, in sheet order) and the join ([pd.merge]). *)
Class Pandas : Type := {
  UploadedFile : Type;
  read_sheets : UploadedFile -> PyResult (list (string * DataFrame));
  pd_merge : DataFrame -> DataFrame -> option string -> option string ->
             JoinKind -> PyResult DataFrame
}.

Section Wizard.
Context {P : Pandas}.

(** What the browser sends with a run: the uploaded file, the entry picked
    in each select box, and the button that was pressed, if any. *)
Record Widgets : Type := mkWidgets {
  ui_file : option UploadedFile;
  ui_left_sheet : option string;
  ui_right_sheet : option string;
  ui_left_on : option string;
  ui_right_on : option string;
  ui_how : JoinKind;
  ui_button : option Button
}.

(** A rerun carries no button press, and the uploader of a page that was
    not on screen holds no file. *)
Definition no_widgets : Widgets :=
  mkWidgets None None None None None Inner None.

Record World : Type := mkWorld {
  session : SessionState;
  heap : Heap;
  widgets : Widgets;
  rendered : list Button;
  in_callback : bool
}.

(** How a piece of the script ends: normally, by [st.rerun()] (which
    unwinds the script and is not an [Exception]), or by an exception. *)
Inductive Outcome (A : Type) : Type :=
| Done (a : A) (w : World)
| Rerun (w : World)
| Uncaught (e : PyExn) (w : World).
Arguments Done {A} a w.
Arguments Rerun {A} w.
Arguments Uncaught {A} e w.

Definition Script (A : Type) : Type := World -> Outcome A.

Definition ret {A : Type} (a : A) : Script A := fun w => Done a w.

Definition bind {A B : Type} (m : Script A) (k : A -> Script B) : Script B :=
  fun w => match m w with
           | Done a w' => k a w'
           | Rerun w' => Rerun w'
           | Uncaught e w' => Uncaught e w'
           end.

Definition raise {A : Type} (e : PyExn) : Script A := fun w => Uncaught e w.

(** [try: body except Exception as e: handler(e)] *)
Definition try_except {A : Type} (body : Script A)
  (handler : PyExn -> Script A) : Script A :=
  fun w => match body w with
           | Uncaught e w' => handler e w'
           | o => o
           end.

Definition final_world {A : Type} (o : Outcome A) : World :=
  match o with
  | Done _ w | Rerun w | Uncaught _ w => w
  end.
End Wizard.

Arguments Done {P A} a w.
Arguments Rerun {P A} w.
Arguments Uncaught {P A} e w.

Notation "x <- m ;; k" := (bind m (fun x => k))
  (at level 61, m at next level, right associativity).
Notation "m ;; k" := (bind m (fun _ => k))
  (at level 61, right associativity).

Section Streamlit.
Context {P : Pandas}.

(** ** Reading and writing [st.session_state] *)

Definition get_session : Script SessionState := fun w => Done (session w) w.

Definition put_session (s : SessionState) : Script unit :=
  fun w => Done tt (mkWorld s (heap w) (widgets w) (rendered w) (in_callback w)).

Definition set_step (n : Z) : Script unit :=
  s <- get_session ;; put_session (mkSession n (dataframes s) (final_df s)).

Definition set_dataframes (d : Dict Ref) : Script unit :=
  s <- get_session ;; put_session (mkSession (step s) d (final_df s)).

Definition set_final_df (f : option Ref) : Script unit :=
  s <- get_session ;; put_session (mkSession (step s) (dataframes s) f).

(** [st.session_state.dataframes[name]]; [name] is [None] when the select
    box had nothing to offer. *)
Definition dataframes_getitem (name : option string) : Script Ref :=
  s <- get_session ;;
  match name with
  | Some k => match dict_get k (dataframes s) with
              | Some r => ret r
              | None => raise KeyError
              end
  | None => raise KeyError
  end.

(** ** The heap *)

Definition read_frame (r : Ref) : Script DataFrame :=
  fun w => Done (deref (heap w) r) w.

Definition new_frame (df : DataFrame) : Script Ref :=
  fun w => let (r, h) := alloc df (heap w) in
           Done r (mkWorld (session w) h (widgets w) (rendered w)
                           (in_callback w)).

Fixpoint new_frames (sheets : list (string * DataFrame))
  : Script (list (string * Ref)) :=
  match sheets with
  | [] => ret []
  | (name, df) :: rest =>
      r <- new_frame df ;;
      rs <- new_frames rest ;;
      ret ((name, r) :: rs)
  end.

Definition call {A : Type} (res : PyResult A) : Script A :=
  match res with
  | Returned a => ret a
  | Raised e => raise e
  end.

(** ** Streamlit calls *)

(** Output-only calls ([st.header], [st.write], [st.success], [st.error],
    [st.dataframe], [st.tabs], [st.progress], the PyGWalker explorer):
    they draw and leave the session untouched. *)
Definition st_display : Script unit := ret tt.

Definition st_file_uploader : Script (option UploadedFile) :=
  fun w => Done (ui_file (widgets w)) w.

(** [st.selectbox(label, options)]: the picked entry when it is one of the
    options, else the first option, and [None] when there is no option. *)
Definition selectbox (options : list string) (picked : option string)
  : option string :=
  match picked with
  | Some x => if mem x options then Some x else hd_error options
  | None => hd_error options
  end.

Definition st_selectbox (pick : Widgets -> option string)
  (options : list string) : Script (option string) :=
  fun w => Done (selectbox options (pick (widgets w))) w.

Definition st_selectbox_how : Script JoinKind :=
  fun w => Done (ui_how (widgets w)) w.

Definition pressed (b : Button) (ui : Widgets) : bool :=
  match ui_button ui with
  | Some b' => button_eqb b' b
  | None => false
  end.

(** [st.button(label)]: draws the button; [True] in the run its press
    started. With [on_click=] the callback has already run, before the
    script, and the return value is not used. *)
Definition st_button (b : Button) : Script bool :=
  fun w => Done (pressed b (widgets w))
                (mkWorld (session w) (heap w) (widgets w)
                         (rendered w ++ [b]) (in_callback w)).

(** [st.rerun()]: stops the script and starts it again; inside a callback
    it does nothing. *)
Definition st_rerun : Script unit :=
  fun w => if in_callback w then Done tt w else Rerun w.

(** ** The script *)

Definition move_to_step (step_number : Z) : Script unit :=
  set_step step_number ;;
  st_rerun.

Definition load_excel_file (uploaded_file : UploadedFile) : Script unit :=
  try_except
    (sheets <- call (read_sheets uploaded_file) ;;
     frames <- new_frames sheets ;;
     set_dataframes (dict_of frames) ;;
     st_display)
    (fun _ => st_display).

Definition is_empty {V : Type} (d : Dict V) : bool :=
  match d with [] => true | _ => false end.

Definition render_step1_upload : Script unit :=
  uploaded_file <- st_file_uploader ;;
  match uploaded_file with
  | Some f =>
      s <- get_session ;;
      (if is_empty (dataframes s) then load_excel_file f else ret tt) ;;
      s <- get_session ;;
      if negb (is_empty (dataframes s)) then
        st_display ;;
        _ <- st_button NextBuildRelationships ;;
        ret tt
      else ret tt
  | None => ret tt
  end.

Definition option_string_eqb (a : option string) (s : string) : bool :=
  match a with
  | Some x => String.eqb s x
  | None => false
  end.

(** Line 76: [[s for s in sheet_names if s != left_sheet]] *)
Definition right_sheet_options (sheet_names : list string)
  (left_sheet : option string) : list string :=
  filter (fun s => negb (option_string_eqb left_sheet s)) sheet_names.

Definition render_step2_relations : Script unit :=
  s <- get_session ;;
  let sheet_names := dict_keys (dataframes s) in
  left_sheet <- st_selectbox ui_left_sheet sheet_names ;;
  left_df <- dataframes_getitem left_sheet ;;
  left_frame <- read_frame left_df ;;
  st_display ;;
  right_sheet <- st_selectbox ui_right_sheet
                   (right_sheet_options sheet_names left_sheet) ;;
  right_df <- dataframes_getitem right_sheet ;;
  right_frame <- read_frame right_df ;;
  st_display ;;
  left_on <- st_selectbox ui_left_on (columns left_frame) ;;
  right_on <- st_selectbox ui_right_on (columns right_frame) ;;
  how <- st_selectbox_how ;;
  merge_pressed <- st_button MergeSheets ;;
  (if merge_pressed then
     try_except
       (merged <- call (pd_merge left_frame right_frame left_on right_on how) ;;
        merged_df <- new_frame merged ;;
        set_final_df (Some merged_df) ;;
        st_display)
       (fun _ => st_display)
   else ret tt) ;;
  _ <- st_button BackButton ;;
  s <- get_session ;;
  match final_df s with
  | None =>
      skip_pressed <- st_button SkipMerge ;;
      if skip_pressed then
        set_final_df (Some left_df) ;;
        move_to_step 3
      else ret tt
  | Some _ =>
      _ <- st_button NextVisualize ;;
      ret tt
  end.

Definition render_step3_visualize : Script unit :=
  s <- get_session ;;
  match final_df s with
  | Some final =>
      frame <- read_frame final ;;
      st_display
  | None => st_display
  end ;;
  start_over <- st_button StartOver ;;
  if start_over then
    set_dataframes [] ;;
    set_final_df None ;;
    move_to_step 1
  else ret tt.

(** Line 137: [progress_map = {1: 33, 2: 66, 3: 100}] *)
Definition progress_map : list (Z * Z) := [(1, 33); (2, 66); (3, 100)]%Z.

Fixpoint progress_lookup (m : list (Z * Z)) (k : Z) : option Z :=
  match m with
  | [] => None
  | (k', v) :: rest => if Z.eqb k' k then Some v else progress_lookup rest k
  end.

Definition progress_getitem (k : Z) : Script Z :=
  match progress_lookup progress_map k with
  | Some v => ret v
  | None => raise KeyError
  end.

Definition main : Script unit :=
  s <- get_session ;;
  _ <- progress_getitem (step s) ;;
  s <- get_session ;;
  if Z.eqb (step s) 1 then render_step1_upload
  else if Z.eqb (step s) 2 then render_step2_relations
  else if Z.eqb (step s) 3 then render_step3_visualize
  else ret tt.

(** ** The Streamlit runtime: one user action, one turn *)

(** The [on_click=move_to_step, args=(n,)] registrations. *)
Definition on_click (b : Button) : option (Script unit) :=
  match b with
  | NextBuildRelationships => Some (move_to_step 2)
  | BackButton => Some (move_to_step 1)
  | NextVisualize => Some (move_to_step 3)
  | MergeSheets | SkipMerge | StartOver => None
  end.

(** What survives between runs: the session, the frames, and the buttons
    the last run drew. *)
Record App : Type := mkApp {
  app_session : SessionState;
  app_heap : Heap;
  offered : list Button
}.

Definition initial_app : App := mkApp initial_session [] [].

Definition settle {A : Type} (o : Outcome A) : App :=
  let w := final_world o in
  mkApp (session w) (heap w) (rendered w).

(** Only a button on screen can be pressed. *)
Definition accept (a : App) (ui : Widgets) : Widgets :=
  match ui_button ui with
  | Some b =>
      if existsb (button_eqb b) (offered a) then ui
      else mkWidgets (ui_file ui) (ui_left_sheet ui) (ui_right_sheet ui)
                     (ui_left_on ui) (ui_right_on ui) (ui_how ui) None
  | None => ui
  end.

Definition run_callback (ui : Widgets) (s : SessionState) (h : Heap)
  : SessionState * Heap :=
  match ui_button ui with
  | Some b =>
      match on_click b with
      | Some cb =>
          let w := final_world (cb (mkWorld s h ui [] true)) in
          (session w, heap w)
      | None => (s, h)
      end
  | None => (s, h)
  end.

(** One turn: the pressed button's callback, then the script from the top;
    when the script asks for a rerun it runs once more, with no button
    pressed. *)
Definition turn (a : App) (ui : Widgets) : App :=
  let (s, h) := run_callback ui (app_session a) (app_heap a) in
  match main (mkWorld s h ui [] false) with
  | Rerun w =>
      settle (main (mkWorld (session w) (heap w) no_widgets [] false))
  | o => settle o
  end.

Definition react (a : App) (ui : Widgets) : App := turn a (accept a ui).

Inductive reachable : App -> Prop :=
| reach_start : reachable initial_app
| reach_react (a : App) (ui : Widgets) :
    reachable a -> reachable (react a ui).

Definition run (a : App) (uis : list Widgets) : App := fold_left react uis a.

(** ** User actions *)

Definition upload (f : UploadedFile) : Widgets :=
  mkWidgets (Some f) None None None None Inner None.

Definition press (b : Button) : Widgets :=
  mkWidgets None None None None None Inner (Some b).

(** Pressing "Merge Sheets" with the given sheets, keys and join kind
    picked. *)
Definition press_merge (l r : string) (lkey rkey : string) (how : JoinKind)
  : Widgets :=
  mkWidgets None (Some l) (Some r) (Some lkey) (Some rkey) how
            (Some MergeSheets).

(** ** Observations *)

(** The Table Store as the user sees it: sheet name to table. *)
Definition store_contents (a : App) : Dict DataFrame :=
  map (fun kv => (fst kv, deref (app_heap a) (snd kv)))
      (dataframes (app_session a)).

Definition final_table (a : App) : option DataFrame :=
  option_map (deref (app_heap a)) (final_df (app_session a)).

(** The sheet the "Select Left Sheet" box shows in a run. *)
Definition selected_left (a : App) (ui : Widgets) : option string :=
  selectbox (dict_keys (dataframes (app_session a))) (ui_left_sheet ui).

Definition selected_right (a : App) (ui : Widgets) : option string :=
  selectbox (right_sheet_options (dict_keys (dataframes (app_session a)))
                                 (selected_left a ui))
            (ui_right_sheet ui).

(** The table behind a sheet name of the store. *)
Definition table_of (a : App) (name : option string) : option DataFrame :=
  match name with
  | Some k => option_map (deref (app_heap a))
                         (dict_get k (dataframes (app_session a)))
  | None => None
  end.

(** The [pd.merge] call a press of "Merge Sheets" makes in a run. *)
Definition merge_attempt (a : App) (ui : Widgets)
  : option (PyResult DataFrame) :=
  match table_of a (selected_left a ui), table_of a (selected_right a ui) with
  | Some l, Some r =>
      Some (pd_merge l r (selectbox (columns l) (ui_left_on ui))
                     (selectbox (columns r) (ui_right_on ui)) (ui_how ui))
  | _, _ => None
  end.

(** ** Invariants of the session *)

Definition valid_step (n : Z) : Prop := n = 1%Z \/ n = 2%Z \/ n = 3%Z.

(** Every reference the session holds denotes a frame of the heap. *)
Definition store_refs (d : Dict Ref) (h : Heap) : Prop :=
  forall name r, In (name, r) d -> (r < length h)%nat.

Definition final_ref (f : option Ref) (h : Heap) : Prop :=
  forall r, f = Some r -> (r < length h)%nat.

Definition refs_valid (s : SessionState) (h : Heap) : Prop :=
  store_refs (dataframes s) h /\ final_ref (final_df s) h.

Definition two_names (names : list string) : Prop :=
  exists x y, In x names /\ In y names /\ x <> y.

Definition two_sheets (s : SessionState) : Prop :=
  two_names (dict_keys (dataframes s)).

(** What a button on screen says about the session. *)
Definition screen_ok (a : App) : Prop :=
  (In SkipMerge (offered a) ->
     step (app_session a) = 2%Z /\ final_df (app_session a) = None
     /\ two_sheets (app_session a))
  /\ (In MergeSheets (offered a) ->
        step (app_session a) = 2%Z /\ two_sheets (app_session a))
  /\ (In NextVisualize (offered a) ->
        step (app_session a) = 2%Z /\ two_sheets (app_session a)
        /\ final_df (app_session a) <> None)
  /\ (In StartOver (offered a) -> step (app_session a) = 3%Z).

Definition app_ok (a : App) : Prop :=
  valid_step (step (app_session a))
  /\ refs_valid (app_session a) (app_heap a)
  /\ screen_ok a.
End Streamlit.

(** Modelled from the spec: the collaborators outside this repository. An
    upload is either unreadable or a workbook with its sheets in order, and
    the join is the Join Engine contract [merge] above. *)
Definition spec_pandas : Pandas := {|
  UploadedFile := option (list (string * DataFrame));
  read_sheets := fun f => match f with
                          | Some sheets => Returned sheets
                          | None => Raised ExcelError
                          end;
  pd_merge := merge
|}.

(** A workbook with the two sheets of the join-correctness example. *)
Definition sample_workbook : @UploadedFile spec_pandas :=
  Some [("Orders", example_left); ("Customers", example_right)].

(** Uploading the workbook and moving on to the Relate page. *)
Definition sample_session : list (@Widgets spec_pandas) :=
  [ upload sample_workbook; press NextBuildRelationships ].

(** The session after the upload, still on the Upload page. *)
Definition uploaded_app : App :=
  react (P := spec_pandas) initial_app (upload sample_workbook).

(** The session on the Relate page, before any merge. *)
Definition relate_app : App := run (P := spec_pandas) initial_app sample_session.

(** An inner join of the two sheets on [id], and the session after it. *)
Definition good_merge : @Widgets spec_pandas :=
  press_merge "Orders" "Customers" "id" "id" Inner.

Definition merged_app : App := react (P := spec_pandas) relate_app good_merge.

(** A join of the numeric [id] column with the text column [b]: the key
    columns are of incompatible kinds. *)
Definition bad_merge : @Widgets spec_pandas :=
  press_merge "Orders" "Customers" "id" "b" Inner.

(** The session on the Visualize page. *)
Definition visualize_app : App :=
  react (P := spec_pandas) merged_app (press NextVisualize).

(* ================================================================== *)
(** * What each page shows *)

(** The buttons of the Relate page when it renders to its end (lines 91 to
    112): the third one is the skip button while no final table is set and
    "Next: Visualize" once one is. *)
Definition relate_buttons (final : option Ref) : list Button :=
  [MergeSheets; BackButton;
   match final with
   | None => SkipMerge
   | Some _ => NextVisualize
   end].

(** The screen and the data of a session, page by page. *)
Definition pages_ok (a : App) : Prop :=
  (step (app_session a) = 1%Z ->
     offered a = []
     \/ (offered a = [NextBuildRelationships]
         /\ dataframes (app_session a) <> []))
  /\ (step (app_session a) = 2%Z ->
        dataframes (app_session a) <> []
        /\ ((offered a = [] /\ ~ two_sheets (app_session a))
            \/ (offered a = relate_buttons (final_df (app_session a))
                /\ two_sheets (app_session a))))
  /\ (step (app_session a) = 3%Z ->
        dataframes (app_session a) <> []
        /\ final_df (app_session a) <> None
        /\ offered a = [StartOver]).

(** What one turn can do to the session: nothing, or exactly one of the
    seven effects the script has. *)
Inductive action {P : Pandas} (a : App) (ui : Widgets) (a' : App) : Prop :=
| act_none :
    app_session a' = app_session a ->
    app_heap a' = app_heap a ->
    action a ui a'
| act_load (f : UploadedFile) (sheets : list (string * DataFrame)) :
    step (app_session a) = 1%Z ->
    dataframes (app_session a) = [] ->
    ui_file ui = Some f ->
    read_sheets f = Returned sheets ->
    app_session a'
    = mkSession 1 (dict_of (combine (map fst sheets)
                              (seq (length (app_heap a)) (length sheets))))
                (final_df (app_session a)) ->
    app_heap a' = app_heap a ++ map snd sheets ->
    action a ui a'
| act_next :
    ui_button ui = Some NextBuildRelationships ->
    step (app_session a) = 1%Z ->
    app_session a' = mkSession 2 (dataframes (app_session a))
                               (final_df (app_session a)) ->
    app_heap a' = app_heap a ->
    action a ui a'
| act_back :
    ui_button ui = Some BackButton ->
    step (app_session a) = 2%Z ->
    app_session a' = mkSession 1 (dataframes (app_session a))
                               (final_df (app_session a)) ->
    app_heap a' = app_heap a ->
    action a ui a'
| act_visualize :
    ui_button ui = Some NextVisualize ->
    step (app_session a) = 2%Z ->
    final_df (app_session a) <> None ->
    app_session a' = mkSession 3 (dataframes (app_session a))
                               (final_df (app_session a)) ->
    app_heap a' = app_heap a ->
    action a ui a'
| act_merge (df : DataFrame) :
    ui_button ui = Some MergeSheets ->
    step (app_session a) = 2%Z ->
    merge_attempt a ui = Some (Returned df) ->
    app_session a' = mkSession 2 (dataframes (app_session a))
                               (Some (length (app_heap a))) ->
    app_heap a' = app_heap a ++ [df] ->
    action a ui a'
| act_skip (l : string) (lr : Ref) :
    ui_button ui = Some SkipMerge ->
    step (app_session a) = 2%Z ->
    final_df (app_session a) = None ->
    selected_left a ui = Some l ->
    dict_get l (dataframes (app_session a)) = Some lr ->
    app_session a' = mkSession 3 (dataframes (app_session a)) (Some lr) ->
    app_heap a' = app_heap a ->
    action a ui a'
| act_start_over :
    ui_button ui = Some StartOver ->
    step (app_session a) = 3%Z ->
    app_session a' = initial_session ->
    app_heap a' = app_heap a ->
    action a ui a'.

(** A workbook with one sheet, and the session after its upload. *)
Definition single_workbook : @UploadedFile spec_pandas :=
  Some [("Only", example_left)].

Definition single_uploaded_app : App :=
  react (P := spec_pandas) initial_app (upload single_workbook).

(** An upload that cannot be read. *)
Definition unreadable_file : @UploadedFile spec_pandas := None.

Definition unreadable_upload : @Widgets spec_pandas :=
  upload unreadable_file.

(* ================================================================== *)
(** * Facts about cells, rows and dictionaries *)

Lemma value_eqb_eq (a b : Value) : value_eqb a b = true <-> a = b.
Proof.
  destruct a, b; simpl; split; intro H; try discriminate; try reflexivity.
  - apply Z.eqb_eq in H. now subst.
  - inversion H. apply Z.eqb_refl.
  - apply String.eqb_eq in H. now subst.
  - inversion H. apply String.eqb_refl.
  - apply Bool.eqb_prop in H. now subst.
  - inversion H. apply Bool.eqb_reflx.
  - apply Z.eqb_eq in H. now subst.
  - inversion H. apply Z.eqb_refl.
Qed.

Lemma value_eqb_sym (a b : Value) : value_eqb a b = value_eqb b a.
Proof.
  destruct (value_eqb a b) eqn:E.
  - apply value_eqb_eq in E. subst. symmetry. now apply value_eqb_eq.
  - destruct (value_eqb b a) eqn:E'; [|reflexivity].
    apply value_eqb_eq in E'. subst.
    assert (value_eqb a a = true) by now apply value_eqb_eq.
    congruence.
Qed.

Lemma index_of_lt (c : string) (cols : list string) (i : nat) :
  index_of c cols = Some i -> (i < length cols)%nat.
Proof.
  revert i. induction cols as [|x rest IH]; simpl; intros i H; [discriminate|].
  destruct (String.eqb x c).
  - inversion H. lia.
  - destruct (index_of c rest) as [j|]; simpl in H; [|discriminate].
    inversion H. specialize (IH j eq_refl). lia.
Qed.

Lemma cell_paired (li ri : nat) (same : bool) (l r : Row) :
  (li < length l)%nat -> cell li (paired ri same l r) = cell li l.
Proof. intro H. unfold cell, paired. now apply app_nth1. Qed.

(** The rows of an inner join, row by row. *)
Lemma in_inner_rows (left right : DataFrame) (li ri : nat) (same : bool)
  (row : Row) :
  In row (inner_rows left right li ri same) <->
  exists l r, In l (rows left) /\ In r (rows right)
              /\ cell li l = cell ri r /\ row = paired ri same l r.
Proof.
  unfold inner_rows. rewrite in_flat_map. split.
  - intros (l & Hl & Hrow). apply in_map_iff in Hrow.
    destruct Hrow as (r & <- & Hr). apply filter_In in Hr.
    destruct Hr as [Hr Hm]. apply value_eqb_eq in Hm.
    exists l, r. auto.
  - intros (l & r & Hl & Hr & Hk & ->). exists l. split; [assumption|].
    apply in_map. apply filter_In. split; [assumption|].
    now apply value_eqb_eq.
Qed.

(** Every pair of rows with equal keys is a row of the join, whatever the
    kind. *)
Lemma in_joined_rows (left right : DataFrame) (li ri : nat) (same : bool)
  (how : JoinKind) (l r : Row) :
  In l (rows left) -> In r (rows right) -> cell li l = cell ri r ->
  In (paired ri same l r) (joined_rows left right li ri same how).
Proof.
  intros Hl Hr Hk.
  assert (Hm : matches li ri l r = true) by now apply value_eqb_eq.
  assert (Hleft : In (paired ri same l r) (left_rows left right li ri same)).
  { unfold left_rows. apply in_flat_map. exists l. split; [assumption|].
    assert (Hin : In r (filter (matches li ri l) (rows right)))
      by (apply filter_In; auto).
    destruct (filter (matches li ri l) (rows right)) as [|m ms];
      [contradiction|].
    now apply in_map. }
  destruct how; simpl.
  - apply in_inner_rows. exists l, r. auto.
  - exact Hleft.
  - unfold right_rows. apply in_flat_map. exists r. split; [assumption|].
    assert (Hin : In l (filter (fun l0 => matches li ri l0 r) (rows left)))
      by (apply filter_In; auto).
    destruct (filter (fun l0 => matches li ri l0 r) (rows left)) as [|m ms];
      [contradiction|].
    apply (in_map (fun l0 => paired ri same l0 r)) in Hin. exact Hin.
  - unfold outer_rows. apply in_or_app. now left.
Qed.

Lemma merge_returned (left right : DataFrame) (lkey rkey : string)
  (how : JoinKind) (out : DataFrame) :
  merge left right (Some lkey) (Some rkey) how = Returned out ->
  exists li ri,
    index_of lkey (columns left) = Some li
    /\ index_of rkey (columns right) = Some ri
    /\ columns out = merged_columns (columns left) (columns right) lkey rkey
    /\ rows out = joined_rows left right li ri (String.eqb lkey rkey) how.
Proof.
  unfold merge. intro H.
  destruct (index_of lkey (columns left)) as [li|]; [|discriminate].
  destruct (index_of rkey (columns right)) as [ri|]; [|discriminate].
  destruct (kinds_incompatible _ _); [discriminate|].
  inversion H. subst out. simpl. exists li, ri. auto.
Qed.

Lemma count_key_app (i : nat) (k : Value) (xs ys : list Row) :
  count_key i k (xs ++ ys) = (count_key i k xs + count_key i k ys)%nat.
Proof. unfold count_key. now rewrite filter_app, length_app. Qed.

Lemma count_key_cons (i : nat) (k : Value) (r : Row) (rs : list Row) :
  count_key i k (r :: rs)
  = ((if value_eqb (cell i r) k then 1 else 0) + count_key i k rs)%nat.
Proof. unfold count_key. simpl. now destruct (value_eqb (cell i r) k). Qed.

(** The rows a left row [l] contributes all carry the key of [l]. *)
Lemma count_key_paired (li ri : nat) (same : bool) (k : Value) (l : Row)
  (rs : list Row) :
  (li < length l)%nat ->
  count_key li k (map (paired ri same l) (filter (matches li ri l) rs))
  = if value_eqb (cell li l) k then count_key ri k rs else 0%nat.
Proof.
  intro Hl. unfold count_key.
  induction rs as [|r rs IH]; simpl.
  - now destruct (value_eqb (cell li l) k).
  - unfold matches at 1. destruct (value_eqb (cell li l) (cell ri r)) eqn:Hm.
    + simpl. rewrite cell_paired by assumption.
      apply value_eqb_eq in Hm. rewrite <- Hm.
      destruct (value_eqb (cell li l) k); simpl; now rewrite IH.
    + rewrite IH. destruct (value_eqb (cell li l) k) eqn:Hk; [|reflexivity].
      apply value_eqb_eq in Hk. subst k. rewrite value_eqb_sym, Hm. reflexivity.
Qed.

Lemma count_key_inner_rows (left right : DataFrame) (li ri : nat)
  (same : bool) (k : Value) :
  well_formed left -> (li < length (columns left))%nat ->
  count_key li k (inner_rows left right li ri same)
  = (count_key li k (rows left) * count_key ri k (rows right))%nat.
Proof.
  unfold well_formed, inner_rows. intros Hwf Hli.
  induction (rows left) as [|l ls IH]; simpl; [reflexivity|].
  inversion Hwf as [|? ? Hlen Hrest]; subst.
  rewrite count_key_app, IH by assumption.
  rewrite count_key_paired by lia.
  rewrite (count_key_cons li k l ls).
  destruct (value_eqb (cell li l) k); simpl; lia.
Qed.

Lemma dict_get_in_keys {V : Type} (k : string) (d : Dict V) (v : V) :
  dict_get k d = Some v -> In k (dict_keys d).
Proof.
  induction d as [|[k' v'] rest IH]; simpl; [discriminate|].
  destruct (String.eqb k' k) eqn:E.
  - apply String.eqb_eq in E. auto.
  - auto.
Qed.

Lemma in_keys_dict_get {V : Type} (k : string) (d : Dict V) :
  In k (dict_keys d) -> exists v, dict_get k d = Some v.
Proof.
  induction d as [|[k' v'] rest IH]; simpl; [tauto|].
  intros [-> | H].
  - rewrite String.eqb_refl. eauto.
  - destruct (String.eqb k' k); eauto.
Qed.

Lemma dict_get_in {V : Type} (k : string) (d : Dict V) (v : V) :
  dict_get k d = Some v -> In (k, v) d.
Proof.
  induction d as [|[k' v'] rest IH]; simpl; [discriminate|].
  destruct (String.eqb k' k) eqn:E.
  - intro H. inversion H. apply String.eqb_eq in E. subst. auto.
  - auto.
Qed.

Lemma dict_set_values {V : Type} (k : string) (v x : V) (d : Dict V) :
  In x (map snd (dict_set k v d)) -> x = v \/ In x (map snd d).
Proof.
  induction d as [|[k' v'] rest IH]; simpl.
  - intros [H | []]. auto.
  - destruct (String.eqb k' k); simpl; intros [H | H]; auto.
    apply IH in H. tauto.
Qed.

Lemma dict_of_values {V : Type} (items : list (string * V)) (x : V) :
  In x (map snd (dict_of items)) -> In x (map snd items).
Proof.
  unfold dict_of.
  assert (G : forall d, In x (map snd (fold_left
              (fun d kv => dict_set (fst kv) (snd kv) d) items d)) ->
            In x (map snd d) \/ In x (map snd items)).
  { induction items as [|[k v] rest IH]; simpl; intros d H; [auto|].
    apply IH in H. destruct H as [H | H]; [|auto].
    apply dict_set_values in H. destruct H; auto. }
  intro H. apply G in H. simpl in H. tauto.
Qed.

(** Mapping the values of a dictionary commutes with building it. *)
Lemma map_dict_set {V W : Type} (f : V -> W) (k : string) (v : V) (d : Dict V) :
  map (fun kv => (fst kv, f (snd kv))) (dict_set k v d)
  = dict_set k (f v) (map (fun kv => (fst kv, f (snd kv))) d).
Proof.
  induction d as [|[k' v'] rest IH]; simpl; [reflexivity|].
  destruct (String.eqb k' k); simpl; [reflexivity|]. now rewrite IH.
Qed.

Lemma map_dict_of {V W : Type} (f : V -> W) (items : list (string * V)) :
  map (fun kv => (fst kv, f (snd kv))) (dict_of items)
  = dict_of (map (fun kv => (fst kv, f (snd kv))) items).
Proof.
  unfold dict_of.
  assert (G : forall d,
    map (fun kv => (fst kv, f (snd kv)))
        (fold_left (fun d kv => dict_set (fst kv) (snd kv) d) items d)
    = fold_left (fun d kv => dict_set (fst kv) (snd kv) d)
        (map (fun kv => (fst kv, f (snd kv))) items)
        (map (fun kv => (fst kv, f (snd kv))) d)).
  { induction items as [|kv rest IH]; simpl; intro d; [reflexivity|].
    rewrite IH, map_dict_set. reflexivity. }
  apply (G []).
Qed.

Lemma deref_app (h ext : Heap) (r : Ref) :
  (r < length h)%nat -> deref (h ++ ext) r = deref h r.
Proof. intro H. unfold deref. now apply app_nth1. Qed.

Lemma deref_new (h : Heap) (df : DataFrame) (ext : Heap) :
  deref (h ++ df :: ext) (length h) = df.
Proof. unfold deref. rewrite app_nth2, Nat.sub_diag by lia. reflexivity. Qed.

(* ================================================================== *)
(** * Running the script *)

Arguments selectbox : simpl never.
Arguments dict_get : simpl never.
Arguments dict_keys : simpl never.
Arguments dict_of : simpl never.
Arguments right_sheet_options : simpl never.
Arguments deref : simpl never.
Arguments load_excel_file : simpl never.

(** Unfolds the script down to the widget reads and the collaborator calls. *)
Ltac unfold_script :=
  unfold main, render_step1_upload, render_step2_relations,
    render_step3_visualize, move_to_step, progress_getitem, set_step,
    set_dataframes, set_final_df, get_session, put_session,
    dataframes_getitem, read_frame, new_frame, alloc, call, st_display,
    st_file_uploader, st_selectbox, st_selectbox_how, st_button, st_rerun,
    bind, ret, raise, try_except, pressed; cbn.

Section ScriptFacts.
Context {P : Pandas}.

Lemma selectbox_in (options : list string) (picked : option string)
  (x : string) :
  selectbox options picked = Some x -> In x options.
Proof.
  unfold selectbox. intro H.
  assert (G : hd_error options = Some x -> In x options).
  { destruct options; simpl; intro E; inversion E; auto. }
  destruct picked as [p|]; [|auto].
  destruct (mem p options) eqn:E; [|auto].
  inversion H. subst. unfold mem in E. apply existsb_exists in E.
  destruct E as (y & Hy & Heq). apply String.eqb_eq in Heq. now subst.
Qed.

Lemma selectbox_none (options : list string) (picked : option string) :
  selectbox options picked = None -> options = [].
Proof.
  unfold selectbox.
  destruct picked as [p|]; [destruct (mem p options)|];
    try discriminate; destruct options; simpl; auto; discriminate.
Qed.

Lemma in_right_sheet_options (names : list string) (l : option string)
  (x : string) :
  In x (right_sheet_options names l) <-> In x names /\ l <> Some x.
Proof.
  unfold right_sheet_options. rewrite filter_In.
  destruct l as [k|]; simpl.
  - destruct (String.eqb x k) eqn:E; simpl.
    + apply String.eqb_eq in E. subst. split; [intros [_ H]; discriminate|].
      intros [_ H]. congruence.
    + apply String.eqb_neq in E. split; intros [H _]; split; auto.
      congruence.
  - split; intros [H _]; split; auto. discriminate.
Qed.

(** Parsing the sheets builds one new frame per sheet, in order. *)
Lemma new_frames_spec (sheets : list (string * DataFrame)) :
  forall s h ui rd cb,
    new_frames sheets (mkWorld s h ui rd cb)
    = Done (combine (map fst sheets) (seq (length h) (length sheets)))
           (mkWorld s (h ++ map snd sheets) ui rd cb).
Proof.
  induction sheets as [|[name df] rest IH]; intros s h ui rd cb; simpl.
  - unfold ret. now rewrite app_nil_r.
  - unfold bind, new_frame, alloc. simpl. rewrite IH. unfold ret.
    rewrite <- app_assoc, length_app. simpl.
    now rewrite Nat.add_1_r.
Qed.

Lemma load_excel_file_spec (f : UploadedFile) :
  forall s h ui rd cb,
    load_excel_file f (mkWorld s h ui rd cb)
    = match read_sheets f with
      | Returned sheets =>
          Done tt (mkWorld
                     (mkSession (step s)
                        (dict_of (combine (map fst sheets)
                                          (seq (length h) (length sheets))))
                        (final_df s))
                     (h ++ map snd sheets) ui rd cb)
      | Raised _ => Done tt (mkWorld s h ui rd cb)
      end.
Proof.
  intros. unfold load_excel_file, try_except, bind, call.
  destruct (read_sheets f) as [sheets|e]; simpl.
  - rewrite new_frames_spec. reflexivity.
  - reflexivity.
Qed.

(** ** References stay valid *)

Lemma store_refs_app (d : Dict Ref) (h ext : Heap) :
  store_refs d h -> store_refs d (h ++ ext).
Proof.
  intros H name r E. apply H in E. rewrite length_app. lia.
Qed.

Lemma final_ref_app (f : option Ref) (h ext : Heap) :
  final_ref f h -> final_ref f (h ++ ext).
Proof.
  intros H r E. apply H in E. rewrite length_app. lia.
Qed.

Lemma final_ref_none (h : Heap) : final_ref None h.
Proof. intros r E. discriminate. Qed.

Lemma final_ref_new (h : Heap) (df : DataFrame) :
  final_ref (Some (length h)) (h ++ [df]).
Proof.
  intros r E. inversion E. rewrite length_app. simpl. lia.
Qed.

Lemma final_ref_store (d : Dict Ref) (h : Heap) (k : string) (r : Ref) :
  dict_get k d = Some r -> store_refs d h -> final_ref (Some r) h.
Proof.
  intros E H r' E'. inversion E'. subst. apply dict_get_in in E. eauto.
Qed.

Lemma store_refs_empty (h : Heap) : store_refs [] h.
Proof. intros name r []. Qed.

Lemma in_combine_seq (names : list string) (start n : nat) (r : Ref) :
  In r (map snd (combine names (seq start n))) -> (r < start + n)%nat.
Proof.
  intro H. apply in_map_iff in H. destruct H as ([k r'] & E & H).
  simpl in E. subst r'. apply in_combine_r in H. apply in_seq in H. lia.
Qed.

Lemma store_refs_load (h : Heap) (sheets : list (string * DataFrame)) :
  store_refs (dict_of (combine (map fst sheets)
                               (seq (length h) (length sheets))))
             (h ++ map snd sheets).
Proof.
  intros name r E. apply (in_map snd) in E. simpl in E.
  apply dict_of_values, in_combine_seq in E.
  rewrite length_app, length_map. exact E.
Qed.

Lemma two_names_selected (names : list string) (p q : option string)
  (l r : string) :
  selectbox names p = Some l ->
  selectbox (right_sheet_options names (Some l)) q = Some r ->
  two_names names.
Proof.
  intros Hl Hr. apply selectbox_in in Hl, Hr.
  apply in_right_sheet_options in Hr. destruct Hr as [Hr Hne].
  exists l, r. repeat split; auto. congruence.
Qed.
End ScriptFacts.

Create HintDb wizard.
#[export] Hint Resolve store_refs_app final_ref_app final_ref_none
  final_ref_new final_ref_store store_refs_empty store_refs_load
  two_names_selected : wizard.

(** Follows the script through every branch it can take. *)
Ltac script_cases :=
  repeat (cbn;
          match goal with
          | |- context [load_excel_file _ (mkWorld _ _ _ _ _)] =>
              rewrite load_excel_file_spec
          | |- context [match ?x with _ => _ end] =>
              lazymatch x with
              | context [match _ with _ => _ end] => fail
              | _ => destruct x eqn:?
              end
          end);
  cbn.

Section RuntimeFacts.
Context {P : Pandas}.

Lemma main_no_rerun (s : SessionState) (h : Heap) (ui : Widgets) :
  ui_button ui = None ->
  match main (mkWorld s h ui [] false) with
  | Rerun _ => False
  | _ => True
  end.
Proof.
  intro Hb. destruct ui; simpl in Hb; subst. unfold_script.
  script_cases; auto.
Qed.

Lemma main_keeps_ok (s : SessionState) (h : Heap) (ui : Widgets) :
  valid_step (step s) -> refs_valid s h ->
  match main (mkWorld s h ui [] false) with
  | Rerun w => valid_step (step (session w))
               /\ refs_valid (session w) (heap w)
  | o => app_ok (settle o)
  end.
Proof.
  intros Hstep Hrefs. destruct ui, s as [n dfs fin].
  unfold valid_step in Hstep. simpl in Hstep.
  destruct Hstep as [-> | [-> | ->]]; unfold_script; script_cases.
  all: unfold app_ok, settle, valid_step, screen_ok, refs_valid,
         two_sheets in *; cbn in *.
  all: destruct Hrefs as [Hstore Hfinal].
  all: repeat split; eauto with wizard.
  all: try solve [intuition (discriminate || congruence
                             || eauto with wizard)].
Qed.

Lemma run_callback_spec (ui : Widgets) (s : SessionState) (h : Heap) :
  run_callback ui s h
  = (mkSession (match ui_button ui with
                | Some NextBuildRelationships => 2
                | Some BackButton => 1
                | Some NextVisualize => 3
                | _ => step s
                end) (dataframes s) (final_df s), h).
Proof.
  unfold run_callback. destruct s as [n dfs fin].
  destruct (ui_button ui) as [[]|]; reflexivity.
Qed.

Lemma accept_offered (a : App) (ui : Widgets) (b : Button) :
  ui_button ui = Some b -> In b (offered a) -> accept a ui = ui.
Proof.
  intros Hb Hin. unfold accept. rewrite Hb.
  destruct (existsb (button_eqb b) (offered a)) eqn:E; [reflexivity|].
  assert (existsb (button_eqb b) (offered a) = true); [|congruence].
  apply existsb_exists. exists b. split; [assumption|]. now destruct b.
Qed.

Lemma turn_keeps_ok (a : App) (ui : Widgets) :
  valid_step (step (app_session a)) ->
  refs_valid (app_session a) (app_heap a) ->
  app_ok (turn a ui).
Proof.
  intros Hstep Hrefs. unfold turn. rewrite run_callback_spec.
  set (s := mkSession _ _ _).
  assert (Hs : valid_step (step s)).
  { unfold s, valid_step in *. simpl.
    destruct (ui_button ui) as [[]|]; auto. }
  assert (Hr : refs_valid s (app_heap a)) by exact Hrefs.
  pose proof (main_keeps_ok s (app_heap a) ui Hs Hr) as H1.
  destruct (main (mkWorld s (app_heap a) ui [] false)) as [[] w|w|e w];
    try exact H1.
  destruct H1 as [Hs' Hr'].
  pose proof (main_keeps_ok (session w) (heap w) no_widgets Hs' Hr') as H2.
  pose proof (main_no_rerun (session w) (heap w) no_widgets eq_refl) as H3.
  destruct (main (mkWorld (session w) (heap w) no_widgets [] false));
    solve [exact H2 | contradiction].
Qed.

Lemma reachable_ok (a : App) : reachable a -> app_ok a.
Proof.
  induction 1 as [|a ui Hreach IH].
  - unfold app_ok, initial_app, valid_step, refs_valid, screen_ok. simpl.
    repeat split; auto with wizard; contradiction.
  - destruct IH as (Hstep & Hrefs & _). now apply turn_keeps_ok.
Qed.

(** With two sheets in the store both select boxes show a sheet of the
    store, whatever was picked. *)
Lemma relate_resolves (a : App) (ui : Widgets) :
  two_sheets (app_session a) ->
  exists l lr r rr,
    selected_left a ui = Some l
    /\ dict_get l (dataframes (app_session a)) = Some lr
    /\ selected_right a ui = Some r
    /\ dict_get r (dataframes (app_session a)) = Some rr
    /\ l <> r.
Proof.
  intros (x & y & Hx & Hy & Hxy). unfold selected_right, selected_left.
  set (names := dict_keys (dataframes (app_session a))) in *.
  destruct (selectbox names (ui_left_sheet ui)) as [l|] eqn:El.
  2:{ apply selectbox_none in El. rewrite El in Hx. contradiction. }
  pose proof (selectbox_in _ _ _ El) as Hl.
  destruct (in_keys_dict_get _ _ Hl) as [lr Elr].
  destruct (selectbox (right_sheet_options names (Some l))
                      (ui_right_sheet ui)) as [r|] eqn:Er.
  2:{ apply selectbox_none in Er. exfalso.
      destruct (String.eqb_spec x l) as [->|Hne].
      - assert (In y (right_sheet_options names (Some l))) as Hin
          by (apply in_right_sheet_options; split; [assumption|congruence]).
        now rewrite Er in Hin.
      - assert (In x (right_sheet_options names (Some l))) as Hin
          by (apply in_right_sheet_options; split; [assumption|congruence]).
        now rewrite Er in Hin. }
  pose proof (selectbox_in _ _ _ Er) as Hr.
  apply in_right_sheet_options in Hr. destruct Hr as [Hr Hne].
  destruct (in_keys_dict_get _ _ Hr) as [rr Err].
  exists l, lr, r, rr. repeat split; auto. congruence.
Qed.

(** With a single sheet the right select box has nothing to offer, the
    lookup of its [None] raises, and the Relate page ends before it draws any
    button. *)
Remark single_sheet_relate_raises (s : SessionState) (h : Heap) (ui : Widgets)
  (k : string) (r : Ref) :
  step s = 2%Z -> dataframes s = [(k, r)] ->
  main (mkWorld s h ui [] false) = Uncaught KeyError (mkWorld s h ui [] false).
Proof.
  destruct s as [n dfs fin], ui. simpl. intros -> ->.
  assert (Hl : forall p, selectbox [k] p = Some k).
  { intros [x|]; unfold selectbox, mem; simpl; [|reflexivity].
    destruct (String.eqb x k) eqn:E; simpl; [|reflexivity].
    apply String.eqb_eq in E. now subst. }
  unfold_script. unfold dict_keys. simpl. rewrite Hl.
  unfold dict_get. rewrite String.eqb_refl. cbn.
  unfold right_sheet_options. simpl. rewrite String.eqb_refl. simpl.
  now destruct ui_right_sheet0.
Qed.

(** The skip press: the left frame itself becomes the final table, and the
    rerun shows the Visualize page. *)
Lemma turn_skip (a : App) (ui : Widgets) (l r : string) (lr rr : Ref) :
  step (app_session a) = 2%Z ->
  final_df (app_session a) = None ->
  ui_button ui = Some SkipMerge ->
  selected_left a ui = Some l ->
  dict_get l (dataframes (app_session a)) = Some lr ->
  selected_right a ui = Some r ->
  dict_get r (dataframes (app_session a)) = Some rr ->
  turn a ui = mkApp (mkSession 3 (dataframes (app_session a)) (Some lr))
                    (app_heap a) [StartOver].
Proof.
  unfold selected_right, selected_left, turn.
  destruct a as [[n dfs fin] h off], ui. simpl.
  intros -> -> -> Hl Hlr Hr Hrr. rewrite Hl in Hr.
  unfold run_callback. cbn. unfold_script.
  rewrite Hl, Hlr. cbn. rewrite Hr, Hrr. cbn. reflexivity.
Qed.

Lemma turn_merge (a : App) (ui : Widgets) (l r : string) (lr rr : Ref) :
  step (app_session a) = 2%Z ->
  ui_button ui = Some MergeSheets ->
  selected_left a ui = Some l ->
  dict_get l (dataframes (app_session a)) = Some lr ->
  selected_right a ui = Some r ->
  dict_get r (dataframes (app_session a)) = Some rr ->
  merge_attempt a ui
  = Some (pd_merge (deref (app_heap a) lr) (deref (app_heap a) rr)
            (selectbox (columns (deref (app_heap a) lr)) (ui_left_on ui))
            (selectbox (columns (deref (app_heap a) rr)) (ui_right_on ui))
            (ui_how ui))
  /\ turn a ui
     = match pd_merge (deref (app_heap a) lr) (deref (app_heap a) rr)
              (selectbox (columns (deref (app_heap a) lr)) (ui_left_on ui))
              (selectbox (columns (deref (app_heap a) rr)) (ui_right_on ui))
              (ui_how ui) with
       | Returned df =>
           mkApp (mkSession 2 (dataframes (app_session a))
                            (Some (length (app_heap a))))
                 (app_heap a ++ [df])
                 [MergeSheets; BackButton; NextVisualize]
       | Raised _ =>
           mkApp (app_session a) (app_heap a)
                 [MergeSheets; BackButton;
                  match final_df (app_session a) with
                  | None => SkipMerge
                  | Some _ => NextVisualize
                  end]
       end.
Proof.
  unfold merge_attempt, table_of, selected_right, selected_left, turn.
  destruct a as [[n dfs fin] h off], ui. simpl.
  intros -> -> Hl Hlr Hr Hrr. rewrite Hl in *. rewrite Hr, Hlr, Hrr.
  split; [reflexivity|].
  unfold run_callback. cbn. unfold_script.
  rewrite Hl, Hlr. cbn. rewrite Hr, Hrr. cbn.
  destruct (pd_merge _ _ _ _ _); cbn; [reflexivity|].
  destruct fin; reflexivity.
Qed.
End RuntimeFacts.

Section StoreFacts.
Context {P : Pandas}.

(** Frames added to the heap do not change what the store shows. *)
Lemma store_contents_app (s s' : SessionState) (h ext : Heap)
  (off off' : list Button) :
  dataframes s' = dataframes s -> store_refs (dataframes s) h ->
  store_contents (mkApp s' (h ++ ext) off') = store_contents (mkApp s h off).
Proof.
  unfold store_contents. simpl. intros -> Hrefs.
  apply map_ext_in. intros [k r] Hin. simpl.
  rewrite deref_app; [reflexivity|]. eapply Hrefs, Hin.
Qed.

(** The frames of a freshly loaded workbook, read back through the store. *)
Lemma loaded_frames (sheets : list (string * DataFrame)) :
  forall h,
    map (fun kv => (fst kv, deref (h ++ map snd sheets) (snd kv)))
        (combine (map fst sheets) (seq (length h) (length sheets)))
    = sheets.
Proof.
  induction sheets as [|[k df] rest IH]; intro h; simpl; [reflexivity|].
  rewrite deref_new. f_equal.
  specialize (IH (h ++ [df])).
  rewrite <- app_assoc, length_app, Nat.add_1_r in IH. exact IH.
Qed.

Lemma store_contents_load (n : Z) (fin : option Ref) (h : Heap)
  (sheets : list (string * DataFrame)) (off : list Button) :
  store_contents
    (mkApp (mkSession n (dict_of (combine (map fst sheets)
                                    (seq (length h) (length sheets)))) fin)
           (h ++ map snd sheets) off)
  = dict_of sheets.
Proof.
  unfold store_contents. simpl.
  rewrite (map_dict_of (deref (h ++ map snd sheets))).
  now rewrite loaded_frames.
Qed.

(** The Upload page with a file and an empty store: the file is loaded. *)
Lemma turn_load (a : App) (ui : Widgets) (f : UploadedFile)
  (sheets : list (string * DataFrame)) :
  step (app_session a) = 1%Z ->
  dataframes (app_session a) = [] ->
  ui_button ui = None ->
  ui_file ui = Some f ->
  read_sheets f = Returned sheets ->
  let loaded := dict_of (combine (map fst sheets)
                           (seq (length (app_heap a)) (length sheets))) in
  turn a ui
  = mkApp (mkSession 1 loaded (final_df (app_session a)))
          (app_heap a ++ map snd sheets)
          (if is_empty loaded then [] else [NextBuildRelationships]).
Proof.
  destruct a as [[n dfs fin] h off], ui. simpl.
  intros -> -> -> -> Hread. unfold turn, run_callback. cbn.
  unfold_script. rewrite load_excel_file_spec, Hread. cbn.
  destruct (is_empty _); reflexivity.
Qed.

(** The Upload page with a populated store never touches it. *)
Lemma turn_populated (a : App) (ui : Widgets) :
  step (app_session a) = 1%Z ->
  dataframes (app_session a) <> [] ->
  dataframes (app_session (turn a ui)) = dataframes (app_session a)
  /\ final_df (app_session (turn a ui)) = final_df (app_session a)
  /\ app_heap (turn a ui) = app_heap a.
Proof.
  destruct a as [[n dfs fin] h off], ui. simpl. intros -> Hne.
  destruct dfs as [|kv dfs]; [contradiction|].
  unfold turn. rewrite run_callback_spec. cbn.
  destruct ui_button0 as [[]|]; unfold_script; script_cases; auto.
Qed.

(** "Start Over" on the Visualize page, and the rerun that follows. *)
Lemma turn_start_over (a : App) (ui : Widgets) :
  step (app_session a) = 3%Z ->
  ui_button ui = Some StartOver ->
  turn a ui = mkApp (mkSession 1 [] None) (app_heap a) [].
Proof.
  destruct a as [[n dfs fin] h off], ui. simpl. intros -> ->.
  unfold turn, run_callback. cbn. unfold_script.
  destruct fin; reflexivity.
Qed.

(** "Next: Visualize" only moves the step. *)
Lemma turn_next_visualize (a : App) (ui : Widgets) :
  ui_button ui = Some NextVisualize ->
  turn a ui = mkApp (mkSession 3 (dataframes (app_session a))
                               (final_df (app_session a)))
                    (app_heap a) [StartOver].
Proof.
  destruct a as [[n dfs fin] h off], ui. simpl. intros ->.
  unfold turn, run_callback. cbn. unfold_script.
  destruct fin; reflexivity.
Qed.

Lemma accept_nothing_offered (a : App) (ui : Widgets) :
  offered a = [] ->
  ui_button (accept a ui) = None /\ ui_file (accept a ui) = ui_file ui.
Proof.
  intro Hoff. unfold accept. rewrite Hoff.
  destruct (ui_button ui) eqn:E; simpl; auto.
Qed.
End StoreFacts.

(* ================================================================== *)
(** * The join engine: inner join and row multiplicity *)

(** C1: for the inner join kind, merge returns exactly the rows where the
    left key value equals the right key value (every output row is a left row
    paired with a right row of equal key, and every such pair is in the
    output, so rows without a partner are dropped on both sides); for
    left = [{id:1,a:"x"},{id:2,a:"y"}] and right = [{id:1,b:"p"},{id:3,b:"q"}]
    joined on id the output is the single row {id:1,a:"x",b:"p"}. *)
Theorem inner_join_rows :
  (forall (left right : DataFrame) (lkey rkey : string) (out : DataFrame),
     merge left right (Some lkey) (Some rkey) Inner = Returned out ->
     exists li ri,
       index_of lkey (columns left) = Some li
       /\ index_of rkey (columns right) = Some ri
       /\ forall row,
            In row (rows out) <->
            exists l r, In l (rows left) /\ In r (rows right)
                        /\ cell li l = cell ri r
                        /\ row = paired ri (String.eqb lkey rkey) l r)
  /\ option_map to_records
       (returned (merge example_left example_right (Some "id") (Some "id")
                        Inner))
     = Some [[("id", VNum 1); ("a", VText "x"); ("b", VText "p")]].
Proof.
  split; [|reflexivity].
  intros left right lkey rkey out H.
  apply merge_returned in H. destruct H as (li & ri & Hl & Hr & _ & Hrows).
  exists li, ri. repeat split; try assumption.
  - rewrite Hrows. simpl. apply in_inner_rows.
  - rewrite Hrows. simpl. apply in_inner_rows.
Qed.

Lemma inner_join_rows_witness :
  exists li ri,
    index_of "id" (columns example_left) = Some li
    /\ index_of "id" (columns example_right) = Some ri
    /\ forall row,
         In row [[VNum 1; VText "x"; VText "p"]] <->
         exists l r, In l (rows example_left) /\ In r (rows example_right)
                     /\ cell li l = cell ri r
                     /\ row = paired ri (String.eqb "id" "id") l r.
Proof.
  apply (proj1 inner_join_rows example_left example_right "id" "id"
               (mkDataFrame ["id"; "a"; "b"] [[VNum 1; VText "x"; VText "p"]])).
  reflexivity.
Defined.

(* ================================================================== *)
(** * Every join kind: the matched pairs and the null-filled rest *)

Lemma flat_map_app_perm {A B : Type} (g u : A -> list B) (xs : list A) :
  Permutation (flat_map (fun x => g x ++ u x) xs)
              (flat_map g xs ++ flat_map u xs).
Proof.
  induction xs as [|x xs IH]; simpl; [constructor|].
  rewrite <- !app_assoc. apply Permutation_app_head.
  rewrite IH. apply Permutation_app_swap_app.
Qed.

Lemma filter_nil_existsb {A : Type} (f : A -> bool) (xs : list A) :
  filter f xs = [] <-> existsb f xs = false.
Proof.
  induction xs as [|x xs IH]; simpl; [tauto|].
  destruct (f x); simpl; [split; discriminate|exact IH].
Qed.

Lemma flat_map_singletons {A B : Type} (p : A -> bool) (f : A -> B)
  (xs : list A) :
  flat_map (fun x => if p x then [f x] else []) xs = map f (filter p xs).
Proof.
  induction xs as [|x xs IH]; simpl; [reflexivity|].
  destruct (p x); simpl; now rewrite IH.
Qed.

Lemma length_filter_perm {A : Type} (f : A -> bool) (xs ys : list A) :
  Permutation xs ys -> length (filter f xs) = length (filter f ys).
Proof.
  induction 1 as [|x xs ys _ IH|x y xs|xs ys zs _ IH1 _ IH2]; simpl.
  - reflexivity.
  - destruct (f x); simpl; now rewrite IH.
  - destruct (f x), (f y); reflexivity.
  - now rewrite IH1.
Qed.

Section JoinKinds.
Variables (left right : DataFrame) (li ri : nat) (same : bool).

(** A row with or without partners: its pairs, then its null-filled copy
    when there is no pair. *)
Lemma left_rows_split :
  left_rows left right li ri same
  = flat_map (fun l =>
                map (paired ri same l) (filter (matches li ri l) (rows right))
                ++ (if negb (existsb (matches li ri l) (rows right))
                    then [left_only right same l] else []))
             (rows left).
Proof.
  unfold left_rows. apply flat_map_ext. intro l.
  destruct (filter (matches li ri l) (rows right)) as [|m ms] eqn:E.
  - apply filter_nil_existsb in E. now rewrite E.
  - assert (Hex : existsb (matches li ri l) (rows right) = true).
    { destruct (existsb (matches li ri l) (rows right)) eqn:Hex;
        [reflexivity|].
      apply filter_nil_existsb in Hex. congruence. }
    rewrite Hex. simpl. now rewrite app_nil_r.
Qed.

Lemma left_rows_perm :
  Permutation (left_rows left right li ri same)
              (inner_rows left right li ri same
               ++ map (left_only right same) (unmatched_left left right li ri)).
Proof.
  rewrite left_rows_split, flat_map_app_perm.
  unfold inner_rows, unmatched_left.
  now rewrite (flat_map_singletons
                 (fun l => negb (existsb (matches li ri l) (rows right)))).
Qed.

(** Grouping the pairs by right row or by left row gives the same rows. *)
Lemma pairs_by_right_perm (ls rs : list Row) :
  Permutation
    (flat_map (fun r => map (fun l => paired ri same l r)
                            (filter (fun l => matches li ri l r) ls)) rs)
    (flat_map (fun l => map (paired ri same l)
                            (filter (matches li ri l) rs)) ls).
Proof.
  induction ls as [|l ls IH]; simpl.
  - induction rs as [|r rs IHr]; simpl; [constructor|exact IHr].
  - rewrite <- IH.
    rewrite <- (flat_map_singletons (matches li ri l) (paired ri same l)).
    rewrite <- flat_map_app_perm.
    assert (E : forall r,
               map (fun l0 => paired ri same l0 r)
                   (if matches li ri l r
                    then l :: filter (fun l0 => matches li ri l0 r) ls
                    else filter (fun l0 => matches li ri l0 r) ls)
               = (if matches li ri l r then [paired ri same l r] else [])
                 ++ map (fun l0 => paired ri same l0 r)
                      (filter (fun l0 => matches li ri l0 r) ls)).
    { intro r. now destruct (matches li ri l r). }
    rewrite (flat_map_ext _ _ E). reflexivity.
Qed.

Lemma right_rows_perm :
  Permutation (right_rows left right li ri same)
              (inner_rows left right li ri same
               ++ map (right_only left li ri same)
                    (unmatched_right left right li ri)).
Proof.
  assert (E : right_rows left right li ri same
              = flat_map (fun r =>
                  map (fun l => paired ri same l r)
                      (filter (fun l => matches li ri l r) (rows left))
                  ++ (if negb (existsb (fun l => matches li ri l r) (rows left))
                      then [right_only left li ri same r] else []))
                  (rows right)).
  { unfold right_rows. apply flat_map_ext. intro r.
    destruct (filter (fun l => matches li ri l r) (rows left)) as [|m ms] eqn:E.
    - apply filter_nil_existsb in E. now rewrite E.
    - assert (Hex : existsb (fun l => matches li ri l r) (rows left) = true).
      { destruct (existsb (fun l => matches li ri l r) (rows left)) eqn:Hex;
          [reflexivity|].
        apply filter_nil_existsb in Hex. congruence. }
      rewrite Hex. simpl. now rewrite app_nil_r. }
  rewrite E, flat_map_app_perm, pairs_by_right_perm.
  unfold inner_rows, unmatched_right.
  now rewrite (flat_map_singletons
                 (fun r => negb (existsb (fun l => matches li ri l r)
                                         (rows left)))).
Qed.

(** The rows of a join, whatever the kind: the cross product of the matching
    rows, each pair as often as it occurs, and the null-filled rows of the
    kind. *)
Lemma joined_rows_perm (how : JoinKind) :
  Permutation (joined_rows left right li ri same how)
              (inner_rows left right li ri same
               ++ fill_rows left right li ri same how).
Proof.
  destruct how; simpl.
  - now rewrite app_nil_r.
  - apply left_rows_perm.
  - apply right_rows_perm.
  - unfold outer_rows. rewrite left_rows_perm, <- app_assoc. reflexivity.
Qed.
End JoinKinds.

Lemma filter_none {A : Type} (f : A -> bool) (xs : list A) :
  (forall x, In x xs -> f x = false) -> filter f xs = [].
Proof.
  induction xs as [|x xs IH]; simpl; intro H; [reflexivity|].
  rewrite (H x) by auto. apply IH. auto.
Qed.

Lemma count_key_positive (i : nat) (k : Value) (rs : list Row) :
  (0 < count_key i k rs)%nat -> exists r, In r rs /\ cell i r = k.
Proof.
  unfold count_key. intro H.
  destruct (filter (fun r => value_eqb (cell i r) k) rs) as [|r rest] eqn:E;
    [simpl in H; lia|].
  assert (Hin : In r (filter (fun r => value_eqb (cell i r) k) rs))
    by (rewrite E; now left).
  apply filter_In in Hin. destruct Hin as [Hin Hk].
  apply value_eqb_eq in Hk. eauto.
Qed.

Lemma nth_set_nth {A : Type} (i : nat) (v d : A) (l : list A) :
  (i < length l)%nat -> nth i (set_nth i v l) d = v.
Proof.
  revert i. induction l as [|x l IH]; intros [|i] H; simpl in *;
    try lia; [reflexivity|]. apply IH. lia.
Qed.

Lemma length_set_nth {A : Type} (i : nat) (v : A) (l : list A) :
  length (set_nth i v l) = length l.
Proof.
  revert i. induction l as [|x l IH]; intros [|i]; simpl; auto.
Qed.

Section MatchedCount.
Variables (left right : DataFrame) (li ri : nat) (same : bool).
Hypothesis left_wf : well_formed left.
Hypothesis li_lt : (li < length (columns left))%nat.

Lemma left_row_length (l : Row) :
  In l (rows left) -> length l = length (columns left).
Proof.
  intro H. unfold well_formed in left_wf.
  rewrite Forall_forall in left_wf. now apply left_wf.
Qed.

(** In a matched pair the right key position holds the key of the pair. *)
Lemma paired_right_key (l r : Row) :
  In l (rows left) -> matches li ri l r = true ->
  cell (right_key_position left li ri same) (paired ri same l r) = cell li (paired ri same l r).
Proof.
  intros Hl Hm. unfold right_key_position.
  destruct same; [reflexivity|].
  rewrite (cell_paired li ri false l r)
    by (rewrite left_row_length; assumption).
  unfold cell, paired, right_part.
  rewrite app_nth2 by (rewrite left_row_length by assumption; lia).
  rewrite left_row_length by assumption.
  replace (length (columns left) + ri - length (columns left))%nat with ri
    by lia.
  apply value_eqb_eq in Hm. unfold cell in Hm. now rewrite Hm.
Qed.

Lemma count_matched_inner_rows (k : Value) :
  count_matched li (right_key_position left li ri same) k (inner_rows left right li ri same)
  = (count_key li k (rows left) * count_key ri k (rows right))%nat.
Proof.
  rewrite <- (count_key_inner_rows left right li ri same k left_wf li_lt).
  unfold count_matched, count_key. f_equal. apply filter_ext_in.
  intros row Hrow. unfold inner_rows in Hrow. apply in_flat_map in Hrow.
  destruct Hrow as (l & Hl & Hrow). apply in_map_iff in Hrow.
  destruct Hrow as (r & <- & Hr). apply filter_In in Hr.
  destruct Hr as [_ Hm]. rewrite (paired_right_key l r Hl Hm).
  now destruct (value_eqb (cell li (paired ri same l r)) k).
Qed.

(** A null-filled left row carries a key no right row has. *)
Lemma count_matched_left_fill (k : Value) :
  (0 < count_key ri k (rows right))%nat ->
  count_matched li (right_key_position left li ri same) k
    (map (left_only right same) (unmatched_left left right li ri)) = 0%nat.
Proof.
  intro Hk. apply count_key_positive in Hk. destruct Hk as (r & Hr & Hrk).
  unfold count_matched. rewrite filter_none; [reflexivity|].
  intros row Hrow. apply in_map_iff in Hrow. destruct Hrow as (l & <- & Hl).
  unfold unmatched_left in Hl. apply filter_In in Hl. destruct Hl as [Hl Hno].
  destruct (value_eqb (cell li (left_only right same l)) k) eqn:E;
    [|reflexivity].
  exfalso. apply value_eqb_eq in E.
  unfold cell, left_only in E.
  rewrite app_nth1 in E by (rewrite left_row_length; assumption).
  apply negb_true_iff in Hno.
  assert (Hex : existsb (fun r0 => matches li ri l r0) (rows right) = true).
  { apply existsb_exists. exists r. split; [assumption|].
    apply value_eqb_eq. unfold cell in *. congruence. }
  congruence.
Qed.

(** A null-filled right row carries a key no left row has. *)
Lemma count_matched_right_fill (k : Value) :
  (0 < count_key li k (rows left))%nat ->
  count_matched li (right_key_position left li ri same) k
    (map (right_only left li ri same) (unmatched_right left right li ri))
  = 0%nat.
Proof.
  intro Hk. apply count_key_positive in Hk. destruct Hk as (l & Hl & Hlk).
  unfold count_matched. rewrite filter_none; [reflexivity|].
  intros row Hrow. apply in_map_iff in Hrow. destruct Hrow as (r & <- & Hr).
  unfold unmatched_right in Hr. apply filter_In in Hr. destruct Hr as [Hr Hno].
  apply negb_true_iff in Hno.
  destruct (value_eqb (cell (right_key_position left li ri same) (right_only left li ri same r)) k) eqn:E;
    [|now rewrite andb_false_r].
  exfalso. apply value_eqb_eq in E.
  assert (Hkey : cell (right_key_position left li ri same) (right_only left li ri same r) = cell ri r).
  { unfold right_key_position, right_only, cell, right_part.
    destruct same.
    - rewrite app_nth1 by (rewrite length_set_nth, repeat_length; exact li_lt).
      apply nth_set_nth. now rewrite repeat_length.
    - rewrite app_nth2 by (rewrite repeat_length; lia).
      rewrite repeat_length. f_equal. lia. }
  rewrite Hkey in E.
  assert (Hex : existsb (fun l0 => matches li ri l0 r) (rows left) = true).
  { apply existsb_exists. exists l. split; [assumption|].
    apply value_eqb_eq. unfold cell in *. congruence. }
  congruence.
Qed.

Lemma count_matched_app (i j : nat) (k : Value) (xs ys : list Row) :
  count_matched i j k (xs ++ ys)
  = (count_matched i j k xs + count_matched i j k ys)%nat.
Proof. unfold count_matched. now rewrite filter_app, length_app. Qed.

(** For a key both tables hold, every join kind has as many rows of that key
    as the product of its rows on the two sides. *)
Lemma count_matched_joined_rows (how : JoinKind) (k : Value) :
  (0 < count_key li k (rows left))%nat ->
  (0 < count_key ri k (rows right))%nat ->
  count_matched li (right_key_position left li ri same) k (joined_rows left right li ri same how)
  = (count_key li k (rows left) * count_key ri k (rows right))%nat.
Proof.
  intros Hl Hr.
  unfold count_matched at 1.
  rewrite (length_filter_perm _ _ _ (joined_rows_perm left right li ri same how)).
  fold (count_matched li (right_key_position left li ri same) k
          (inner_rows left right li ri same
           ++ fill_rows left right li ri same how)).
  rewrite count_matched_app, count_matched_inner_rows.
  destruct how; simpl; rewrite ?count_matched_app,
    ?count_matched_left_fill, ?count_matched_right_fill by assumption;
    unfold count_matched; simpl; lia.
Qed.
End MatchedCount.

(** C7: when the join key is not unique, the output holds the full cross
    product of the matching rows of each key value, for every join kind: the
    rows of the output are, as a multiset, the pairs of a left row and a
    right row with equal keys, each pair as often as it occurs (nothing
    dropped, nothing repeated), together with the null-filled unmatched rows
    of the kind; so every matching pair is an output row, and for a key both
    tables hold the output has as many rows of that key as the product of
    the numbers of left and right rows with it. Two left rows and one right
    row with key 5 give exactly 2 rows, for the inner join and for every
    other kind. *)
Theorem join_row_multiplicity :
  (forall (left right : DataFrame) (lkey rkey : string) (how : JoinKind)
          (out : DataFrame),
     merge left right (Some lkey) (Some rkey) how = Returned out ->
     exists li ri,
       index_of lkey (columns left) = Some li
       /\ index_of rkey (columns right) = Some ri
       /\ Permutation (rows out)
            (inner_rows left right li ri (String.eqb lkey rkey)
             ++ fill_rows left right li ri (String.eqb lkey rkey) how)
       /\ (forall l r, In l (rows left) -> In r (rows right) ->
                       cell li l = cell ri r ->
                       In (paired ri (String.eqb lkey rkey) l r) (rows out))
       /\ (well_formed left ->
           forall k,
             count_key li k
               (inner_rows left right li ri (String.eqb lkey rkey))
             = (count_key li k (rows left)
                * count_key ri k (rows right))%nat
             /\ ((0 < count_key li k (rows left))%nat ->
                 (0 < count_key ri k (rows right))%nat ->
                 count_matched li
                   (right_key_position left li ri (String.eqb lkey rkey))
                   k (rows out)
                 = (count_key li k (rows left)
                    * count_key ri k (rows right))%nat))
       /\ (how = Inner -> well_formed left ->
           forall k, count_key li k (rows out)
                     = (count_key li k (rows left)
                        * count_key ri k (rows right))%nat))
  /\ (forall how,
        option_map (fun out => length (rows out))
          (returned (merge dup_left dup_right (Some "key") (Some "key") how))
        = Some 2%nat).
Proof.
  split; [|intros []; reflexivity].
  intros left right lkey rkey how out H.
  apply merge_returned in H. destruct H as (li & ri & Hl & Hr & _ & Hrows).
  pose proof (index_of_lt _ _ _ Hl) as Hlt.
  exists li, ri. repeat split; try assumption.
  - rewrite Hrows. apply joined_rows_perm.
  - intros l r Hil Hir Hk. rewrite Hrows. now apply in_joined_rows.
  - now apply count_key_inner_rows.
  - intros Hkl Hkr. rewrite Hrows.
    now apply count_matched_joined_rows.
  - intros -> Hwf k. rewrite Hrows. simpl.
    now apply count_key_inner_rows.
Qed.

Lemma join_row_multiplicity_witness :
  exists li ri,
    index_of "key" (columns dup_left) = Some li
    /\ index_of "key" (columns dup_right) = Some ri
    /\ Permutation
         [[VNum 5; VText "u"; VText "w"]; [VNum 5; VText "v"; VText "w"]]
         (inner_rows dup_left dup_right li ri (String.eqb "key" "key")
          ++ fill_rows dup_left dup_right li ri (String.eqb "key" "key")
               LeftJoin)
    /\ (forall l r, In l (rows dup_left) -> In r (rows dup_right) ->
                    cell li l = cell ri r ->
                    In (paired ri (String.eqb "key" "key") l r)
                       [[VNum 5; VText "u"; VText "w"];
                        [VNum 5; VText "v"; VText "w"]])
    /\ (well_formed dup_left ->
        forall k,
          count_key li k
            (inner_rows dup_left dup_right li ri (String.eqb "key" "key"))
          = (count_key li k (rows dup_left)
             * count_key ri k (rows dup_right))%nat
          /\ ((0 < count_key li k (rows dup_left))%nat ->
              (0 < count_key ri k (rows dup_right))%nat ->
              count_matched li
                (right_key_position dup_left li ri (String.eqb "key" "key"))
                k [[VNum 5; VText "u"; VText "w"];
                   [VNum 5; VText "v"; VText "w"]]
              = (count_key li k (rows dup_left)
                 * count_key ri k (rows dup_right))%nat))
    /\ (LeftJoin = Inner -> well_formed dup_left ->
        forall k, count_key li k [[VNum 5; VText "u"; VText "w"];
                                  [VNum 5; VText "v"; VText "w"]]
                  = (count_key li k (rows dup_left)
                     * count_key ri k (rows dup_right))%nat).
Proof.
  apply (proj1 join_row_multiplicity dup_left dup_right "key" "key" LeftJoin
           (mkDataFrame ["key"; "a"; "b"]
              [[VNum 5; VText "u"; VText "w"];
               [VNum 5; VText "v"; VText "w"]])).
  reflexivity.
Defined.

(* ================================================================== *)
(** * The wizard *)

Section WizardClaims.
Context {P : Pandas}.

(** C3: the options of the "Select Right Sheet" box never include the sheet
    currently selected on the left, so the right selection always differs
    from the left one. *)
Theorem right_options_exclude_left (a : App) (ui : Widgets) (l : string) :
  selected_left a ui = Some l ->
  mem l (right_sheet_options (dict_keys (dataframes (app_session a)))
                             (selected_left a ui)) = false
  /\ selected_right a ui <> Some l.
Proof.
  intro Hl.
  assert (Hnot : ~ In l (right_sheet_options
                           (dict_keys (dataframes (app_session a)))
                           (selected_left a ui))).
  { rewrite in_right_sheet_options. intros [_ H]. contradiction. }
  split.
  - destruct (mem l _) eqn:E; [|reflexivity]. exfalso. apply Hnot.
    unfold mem in E. apply existsb_exists in E.
    destruct E as (x & Hx & Heq). apply String.eqb_eq in Heq. now subst.
  - unfold selected_right. intro H. apply selectbox_in in H. contradiction.
Qed.

(** C10: in every reachable session state the step is 1, 2 or 3, so the
    progress bar's lookup by step is defined and the router has a page for
    it. *)
Theorem step_in_range (a : App) :
  reachable a ->
  valid_step (step (app_session a))
  /\ exists percent,
       progress_getitem (step (app_session a)) = ret percent.
Proof.
  intro H. apply reachable_ok in H. destruct H as (Hstep & _).
  split; [assumption|].
  unfold valid_step in Hstep. unfold progress_getitem.
  destruct Hstep as [-> | [-> | ->]]; simpl; eauto.
Qed.

(** C6: on the Upload page a store that is already populated is left as it
    is by a further upload, whatever the file: same sheets, same tables. *)
Theorem second_load_is_noop (a : App) (ui : Widgets) :
  step (app_session a) = 1%Z ->
  dataframes (app_session a) <> [] ->
  store_contents (react a ui) = store_contents a
  /\ dataframes (app_session (react a ui)) = dataframes (app_session a)
  /\ app_heap (react a ui) = app_heap a.
Proof.
  intros Hstep Hne. unfold react.
  destruct (turn_populated a (accept a ui) Hstep Hne) as (Hd & _ & Hh).
  repeat split; try assumption.
  unfold store_contents. now rewrite Hd, Hh.
Qed.

(** C4: when the skip button is on screen and pressed, the final table
    becomes the currently selected left table itself (the same frame, all
    its rows and columns), nothing is merged, and the step becomes 3. *)
Theorem skip_uses_left_table (a : App) (ui : Widgets) :
  reachable a ->
  In SkipMerge (offered a) ->
  ui_button ui = Some SkipMerge ->
  exists l lr,
    selected_left a ui = Some l
    /\ dict_get l (dataframes (app_session a)) = Some lr
    /\ final_df (app_session (react a ui)) = Some lr
    /\ final_table (react a ui) = table_of a (Some l)
    /\ step (app_session (react a ui)) = 3%Z
    /\ dataframes (app_session (react a ui)) = dataframes (app_session a)
    /\ app_heap (react a ui) = app_heap a.
Proof.
  intros Hreach Hoff Hb.
  destruct (reachable_ok a Hreach) as (_ & _ & Hskip & _).
  destruct (Hskip Hoff) as (Hstep & Hfin & Htwo).
  destruct (relate_resolves a ui Htwo) as (l & lr & r & rr & Hl & Hlr & Hr & Hrr & _).
  exists l, lr. unfold react. rewrite (accept_offered a ui SkipMerge Hb Hoff).
  rewrite (turn_skip a ui l r lr rr Hstep Hfin Hb Hl Hlr Hr Hrr).
  unfold final_table, table_of. simpl. rewrite Hlr. repeat split; auto.
Qed.

(** C5: "Start Over" empties the store, unsets the final table and sets the
    step to 1; the next upload is then loaded, and the store holds its
    sheets. *)
Theorem start_over_resets (a : App) (ui : Widgets) :
  reachable a ->
  In StartOver (offered a) ->
  ui_button ui = Some StartOver ->
  store_contents (react a ui) = []
  /\ dataframes (app_session (react a ui)) = []
  /\ final_df (app_session (react a ui)) = None
  /\ step (app_session (react a ui)) = 1%Z
  /\ forall (ui' : Widgets) (f : UploadedFile) sheets,
       ui_file ui' = Some f ->
       read_sheets f = Returned sheets ->
       store_contents (react (react a ui) ui') = dict_of sheets.
Proof.
  intros Hreach Hoff Hb.
  destruct (reachable_ok a Hreach) as (_ & _ & _ & _ & _ & Hover).
  specialize (Hover Hoff). unfold react at 1 2 3 4.
  rewrite (accept_offered a ui StartOver Hb Hoff).
  rewrite (turn_start_over a ui Hover Hb).
  repeat split.
  intros ui' f sheets Hf Hread. unfold react.
  rewrite (accept_offered a ui StartOver Hb Hoff).
  rewrite (turn_start_over a ui Hover Hb).
  set (a' := mkApp _ _ _).
  destruct (accept_nothing_offered a' ui' eq_refl) as [Hnone Hfile].
  rewrite Hf in Hfile.
  rewrite (turn_load a' (accept a' ui') f sheets eq_refl eq_refl Hnone Hfile
                     Hread).
  apply store_contents_load.
Qed.

(** What a press of "Merge Sheets" does on a reachable Relate page, by the
    result of the [pd.merge] call. *)
Lemma merge_press (a : App) (ui : Widgets) :
  reachable a ->
  In MergeSheets (offered a) ->
  ui_button ui = Some MergeSheets ->
  exists res,
    merge_attempt a ui = Some res
    /\ store_refs (dataframes (app_session a)) (app_heap a)
    /\ react a ui
       = match res with
         | Returned df =>
             mkApp (mkSession 2 (dataframes (app_session a))
                              (Some (length (app_heap a))))
                   (app_heap a ++ [df])
                   [MergeSheets; BackButton; NextVisualize]
         | Raised _ =>
             mkApp (app_session a) (app_heap a)
                   [MergeSheets; BackButton;
                    match final_df (app_session a) with
                    | None => SkipMerge
                    | Some _ => NextVisualize
                    end]
         end.
Proof.
  intros Hreach Hoff Hb.
  destruct (reachable_ok a Hreach) as (_ & [Hrefs _] & _ & Hmerge & _).
  destruct (Hmerge Hoff) as (Hstep & Htwo).
  destruct (relate_resolves a ui Htwo)
    as (l & lr & r & rr & Hl & Hlr & Hr & Hrr & _).
  destruct (turn_merge a ui l r lr rr Hstep Hb Hl Hlr Hr Hrr) as [Hatt Hturn].
  eexists. split; [exact Hatt|]. split; [exact Hrefs|].
  unfold react. rewrite (accept_offered a ui MergeSheets Hb Hoff).
  exact Hturn.
Qed.

Lemma merge_returns (a : App) (ui : Widgets) (df : DataFrame) :
  reachable a ->
  In MergeSheets (offered a) ->
  ui_button ui = Some MergeSheets ->
  merge_attempt a ui = Some (Returned df) ->
  react a ui
  = mkApp (mkSession 2 (dataframes (app_session a))
                     (Some (length (app_heap a))))
          (app_heap a ++ [df]) [MergeSheets; BackButton; NextVisualize].
Proof.
  intros Hreach Hoff Hb Hatt.
  destruct (merge_press a ui Hreach Hoff Hb) as (res & Hres & _ & Hreact).
  rewrite Hres in Hatt. inversion Hatt. subst res. exact Hreact.
Qed.

Lemma react_next_visualize (a : App) :
  In NextVisualize (offered a) ->
  react a (press NextVisualize)
  = mkApp (mkSession 3 (dataframes (app_session a))
                     (final_df (app_session a)))
          (app_heap a) [StartOver].
Proof.
  intro Hoff. unfold react.
  rewrite (accept_offered a (press NextVisualize) NextVisualize eq_refl Hoff).
  now apply turn_next_visualize.
Qed.

(** C2 (amended): when the merge raises, the session is exactly as it was:
    the final table keeps the value it had (unset if it was unset, an
    earlier merge result otherwise), the step stays 2, the store and the
    frames are untouched, and "Merge Sheets" is on screen again. *)
Theorem merge_failure_keeps_session (a : App) (ui : Widgets) (e : PyExn) :
  reachable a ->
  In MergeSheets (offered a) ->
  ui_button ui = Some MergeSheets ->
  merge_attempt a ui = Some (Raised e) ->
  app_session (react a ui) = app_session a
  /\ final_table (react a ui) = final_table a
  /\ step (app_session (react a ui)) = 2%Z
  /\ app_heap (react a ui) = app_heap a
  /\ In MergeSheets (offered (react a ui)).
Proof.
  intros Hreach Hoff Hb Hatt.
  destruct (reachable_ok a Hreach) as (_ & _ & _ & Hmerge & _).
  destruct (Hmerge Hoff) as (Hstep & _).
  destruct (merge_press a ui Hreach Hoff Hb) as (res & Hres & _ & Hreact).
  rewrite Hres in Hatt. inversion Hatt. subst res. rewrite Hreact.
  simpl. repeat split; auto.
Qed.

(** C8: a press of "Merge Sheets", whether the merge returns or raises,
    leaves the Table Store as it was: the same names bound to the same
    frames, no frame of the heap edited; a final table stored by the merge
    is a new frame, none of the store's. *)
Theorem merge_leaves_store (a : App) (ui : Widgets) :
  reachable a ->
  In MergeSheets (offered a) ->
  ui_button ui = Some MergeSheets ->
  store_contents (react a ui) = store_contents a
  /\ dataframes (app_session (react a ui)) = dataframes (app_session a)
  /\ (forall r, (r < length (app_heap a))%nat ->
                deref (app_heap (react a ui)) r = deref (app_heap a) r)
  /\ (forall r name,
        final_df (app_session (react a ui)) = Some r ->
        final_df (app_session (react a ui)) <> final_df (app_session a) ->
        dict_get name (dataframes (app_session a)) <> Some r).
Proof.
  intros Hreach Hoff Hb.
  destruct (merge_press a ui Hreach Hoff Hb) as (res & _ & Hrefs & Hreact).
  rewrite Hreact. destruct res as [df|e].
  - repeat split.
    + destruct a as [s h off]. now apply store_contents_app.
    + intros r Hr. now apply deref_app.
    + simpl. intros r name Hfin _ Hget. inversion Hfin. subst r.
      apply dict_get_in, Hrefs in Hget. lia.
  - destruct a as [s h off]. simpl. repeat split. congruence.
Qed.

(** C9: a successful merge stores its result as the final table and leaves
    the step at 2; "Next: Visualize" is then on screen and pressing it sets
    the step to 3 with the same final table; a further successful merge
    from the same page replaces the final table by the new result. *)
Theorem merge_success_stays_in_relate (a : App) (ui : Widgets)
  (df : DataFrame) :
  reachable a ->
  In MergeSheets (offered a) ->
  ui_button ui = Some MergeSheets ->
  merge_attempt a ui = Some (Returned df) ->
  final_table (react a ui) = Some df
  /\ step (app_session (react a ui)) = 2%Z
  /\ In NextVisualize (offered (react a ui))
  /\ step (app_session (react (react a ui) (press NextVisualize))) = 3%Z
  /\ final_table (react (react a ui) (press NextVisualize)) = Some df
  /\ forall (ui' : Widgets) (df' : DataFrame),
       ui_button ui' = Some MergeSheets ->
       merge_attempt (react a ui) ui' = Some (Returned df') ->
       final_table (react (react a ui) ui') = Some df'
       /\ step (app_session (react (react a ui) ui')) = 2%Z.
Proof.
  intros Hreach Hoff Hb Hatt.
  assert (Hfin : forall h d, final_table
                   (mkApp (mkSession 2 (dataframes (app_session a))
                                     (Some (length h)))
                          (h ++ [d]) [MergeSheets; BackButton; NextVisualize])
                 = Some d).
  { intros h d. unfold final_table. simpl. now rewrite deref_new. }
  pose proof (merge_returns a ui df Hreach Hoff Hb Hatt) as Hreact.
  assert (Hreach' : reachable (react a ui)) by now apply reach_react.
  assert (Hoff' : In MergeSheets (offered (react a ui)))
    by (rewrite Hreact; simpl; auto).
  assert (Hnext : In NextVisualize (offered (react a ui)))
    by (rewrite Hreact; simpl; auto).
  repeat split.
  - rewrite Hreact. apply Hfin.
  - now rewrite Hreact.
  - exact Hnext.
  - now rewrite (react_next_visualize _ Hnext).
  - rewrite (react_next_visualize _ Hnext), Hreact.
    unfold final_table. simpl. now rewrite deref_new.
  - rewrite (merge_returns _ ui' df' Hreach' Hoff' H H0).
    rewrite Hreact. simpl. apply Hfin.
  - now rewrite (merge_returns _ ui' df' Hreach' Hoff' H H0).
Qed.

Lemma reachable_run (a : App) (uis : list Widgets) :
  reachable a -> reachable (run a uis).
Proof.
  revert a. induction uis as [|ui uis IH]; intros a H; simpl; [assumption|].
  apply IH. now apply reach_react.
Qed.
End WizardClaims.

(* ================================================================== *)
(** * Pages, navigation and what the script never does *)

Section PageInvariant.
Context {P : Pandas}.

Lemma selectbox_none_not_two (names : list string) (p : option string) :
  selectbox names p = None -> ~ two_names names.
Proof.
  intros H (x & _ & Hx & _). apply selectbox_none in H. now subst.
Qed.

Lemma right_none_not_two (names : list string) (l : string)
  (q : option string) :
  selectbox (right_sheet_options names (Some l)) q = None ->
  ~ two_names names.
Proof.
  intros H (x & y & Hx & Hy & Hxy). apply selectbox_none in H.
  destruct (String.eqb_spec x l) as [->|Hne].
  - assert (Hin : In y (right_sheet_options names (Some l)))
      by (apply in_right_sheet_options; split; [assumption|congruence]).
    now rewrite H in Hin.
  - assert (Hin : In x (right_sheet_options names (Some l)))
      by (apply in_right_sheet_options; split; [assumption|congruence]).
    now rewrite H in Hin.
Qed.

Lemma selected_in_store (d : Dict Ref) (p : option string) (l : string) :
  selectbox (dict_keys d) p = Some l -> dict_get l d = None -> False.
Proof.
  intros H E. apply selectbox_in, in_keys_dict_get in H.
  destruct H as [v Hv]. congruence.
Qed.

Lemma right_selected_in_store (d : Dict Ref) (l q : option string)
  (r : string) :
  selectbox (right_sheet_options (dict_keys d) l) q = Some r ->
  dict_get r d = None -> False.
Proof.
  intros H E. apply selectbox_in, in_right_sheet_options in H.
  destruct H as [H _]. apply in_keys_dict_get in H.
  destruct H as [v Hv]. congruence.
Qed.

Lemma not_empty_negb {V : Type} (d : Dict V) :
  negb (is_empty d) = true -> d <> [].
Proof. destruct d; simpl; [discriminate|]. intros _ E. discriminate. Qed.

Lemma is_empty_true {V : Type} (d : Dict V) : is_empty d = true -> d = [].
Proof. destruct d; simpl; [reflexivity|discriminate]. Qed.

Lemma not_empty_false {V : Type} (d : Dict V) : is_empty d = false -> d <> [].
Proof. destruct d; simpl; [discriminate|]. intros _ E. discriminate. Qed.
End PageInvariant.

Create HintDb pages.
#[export] Hint Resolve selectbox_none_not_two right_none_not_two
  not_empty_negb not_empty_false two_names_selected : pages.

(** Puts a session with a known step and known buttons through one turn. *)
Ltac drive_turn :=
  unfold react, accept; cbn;
  repeat match goal with
         | |- context [match ?b with Some _ => _ | None => _ end] =>
             is_var b; destruct b as [[]|]; cbn
         end;
  unfold turn, run_callback; cbn; unfold_script; script_cases.

(** Closes a branch the select boxes exclude: a selected sheet is a key of
    the store. *)
Ltac no_such_branch :=
  solve [ exfalso; eauto using selected_in_store, right_selected_in_store
        | match goal with
          | Hne : ?d <> [], He : is_empty ?d = true |- _ =>
              exfalso; apply Hne, is_empty_true, He
          end ].

Ltac page_side :=
  solve [ reflexivity | discriminate | congruence | eauto with pages
        | split; page_side | left; page_side | right; page_side ].

Ltac page_leaf :=
  unfold pages_ok, settle, two_sheets, relate_buttons; cbn;
  repeat split; intros; try discriminate; try page_side.

(** Rewrites with the equations the case analysis has collected. *)
Ltac use_equations :=
  repeat match goal with
         | H : ?x = _ |- context [?x] => rewrite H; cbn
         end.

Ltac action_side :=
  cbn; try reflexivity; try assumption; try discriminate;
  try (apply is_empty_true; assumption);
  try (unfold merge_attempt, table_of, selected_right, selected_left; cbn;
       use_equations; reflexivity).

Ltac action_leaf :=
  unfold settle; cbn;
  first [ solve [apply act_none; action_side]
        | solve [eapply act_load; action_side; eassumption]
        | solve [apply act_next; action_side]
        | solve [apply act_back; action_side]
        | solve [apply act_visualize; action_side]
        | solve [eapply act_merge; action_side]
        | solve [eapply act_skip; action_side; eassumption]
        | solve [apply act_start_over; action_side] ].

Ltac turn_leaf :=
  first [no_such_branch | split; [page_leaf | try action_leaf]].

Section PageSteps.
Context {P : Pandas}.

(** One turn from a session whose screen matches its page: the screen
    matches again, and the turn was one of the eight actions. *)
Lemma react_action (a : App) (ui : Widgets) :
  valid_step (step (app_session a)) -> pages_ok a ->
  pages_ok (react a ui) /\ action a ui (react a ui).
Proof.
  destruct a as [[n dfs fin] h off], ui. unfold pages_ok, valid_step. cbn.
  intros [-> | [-> | ->]] (H1 & H2 & H3).
  - clear H2 H3. destruct (H1 eq_refl) as [-> | [-> Hne]]; clear H1.
    + drive_turn; turn_leaf.
    + drive_turn; turn_leaf.
  - clear H1 H3. destruct (H2 eq_refl) as [Hne [[-> Hone] | [-> Htwo]]];
      clear H2; unfold two_sheets, relate_buttons in *; cbn in *.
    + drive_turn; turn_leaf.
    + destruct fin; drive_turn; turn_leaf.
  - clear H1 H2. destruct (H3 eq_refl) as (Hne & Hfin & ->). clear H3.
    drive_turn; turn_leaf.
Qed.
End PageSteps.

Section Navigation.
Context {P : Pandas}.

Lemma reachable_pages (a : App) : reachable a -> pages_ok a.
Proof.
  induction 1 as [|a ui Hreach IH].
  - unfold pages_ok, initial_app. cbn. repeat split; intros; try discriminate.
    now left.
  - apply react_action; [|assumption].
    now destruct (reachable_ok a Hreach).
Qed.

Lemma reachable_action (a : App) (ui : Widgets) :
  reachable a -> action a ui (react a ui).
Proof.
  intro Hreach. apply react_action.
  - now destruct (reachable_ok a Hreach).
  - now apply reachable_pages.
Qed.

(** X1: every turn of a reachable session either leaves the session state
    and the frames as they are, or is exactly one of seven moves: a load into
    an empty store on the Upload page, "Next" from page 1 to 2, "Back" from 2
    to 1, "Next: Visualize" from 2 to 3 with a final table set, a merge that
    returned, the skip, or "Start Over". *)
Theorem turn_is_one_action (a : App) (ui : Widgets) :
  reachable a -> action a ui (react a ui).
Proof.
  intro Hreach. apply react_action.
  - now destruct (reachable_ok a Hreach).
  - now apply reachable_pages.
Qed.

(** X2: the step moves only along the edges 1 to 2, 2 to 1, 2 to 3 and 3 to
    1, each one by its own button. *)
Theorem step_edges (a : App) (ui : Widgets) :
  reachable a ->
  let s := step (app_session a) in
  let s' := step (app_session (react a ui)) in
  s' = s
  \/ (s = 1%Z /\ s' = 2%Z /\ ui_button ui = Some NextBuildRelationships)
  \/ (s = 2%Z /\ s' = 1%Z /\ ui_button ui = Some BackButton)
  \/ (s = 2%Z /\ s' = 3%Z
      /\ (ui_button ui = Some SkipMerge \/ ui_button ui = Some NextVisualize))
  \/ (s = 3%Z /\ s' = 1%Z /\ ui_button ui = Some StartOver).
Proof.
  intro Hreach. cbn.
  pose proof (react_action a ui (proj1 (reachable_ok a Hreach))
                (reachable_pages a Hreach)) as [_ Hact].
  destruct Hact as [Hs _ | f sheets H1 _ _ _ Hs _ | Hb H1 Hs _ | Hb H1 Hs _
                   | Hb H1 _ Hs _ | df Hb H1 _ Hs _ | l lr Hb H1 _ _ _ Hs _
                   | Hb H1 Hs _];
    rewrite Hs; cbn; rewrite ?H1; auto 10.
Qed.

(** X3: the Relate and Visualize pages are only ever shown with a loaded
    workbook, and the Visualize page only with a final table: the "No data
    found" warning of line 124 is never reached. *)
Theorem pages_have_data (a : App) :
  reachable a ->
  (step (app_session a) = 2%Z \/ step (app_session a) = 3%Z ->
   dataframes (app_session a) <> [])
  /\ (step (app_session a) = 3%Z ->
      exists df, final_table a = Some df).
Proof.
  intro Hreach. destruct (reachable_pages a Hreach) as (_ & H2 & H3).
  split.
  - intros [H | H]; [apply H2 | apply H3]; assumption.
  - intro H. destruct (H3 H) as (_ & Hfin & _). unfold final_table.
    destruct (final_df (app_session a)); [simpl; eauto | congruence].
Qed.

(** X4: the buttons on screen are a function of the page and the data. The
    Upload page shows "Next" only with a non-empty store; the Relate page
    shows nothing when the store has fewer than two sheets, and otherwise
    "Merge Sheets", "Back" and exactly one of the skip button (no final
    table yet) and "Next: Visualize" (final table set); the Visualize page
    shows "Start Over". *)
Theorem buttons_by_page (a : App) :
  reachable a ->
  (step (app_session a) = 1%Z ->
   offered a = []
   \/ (offered a = [NextBuildRelationships]
       /\ dataframes (app_session a) <> []))
  /\ (step (app_session a) = 2%Z ->
      (offered a = [] /\ ~ two_sheets (app_session a))
      \/ (two_sheets (app_session a)
          /\ offered a
             = [MergeSheets; BackButton;
                match final_df (app_session a) with
                | None => SkipMerge
                | Some _ => NextVisualize
                end]))
  /\ (step (app_session a) = 3%Z -> offered a = [StartOver]).
Proof.
  intro Hreach. destruct (reachable_pages a Hreach) as (H1 & H2 & H3).
  repeat split.
  - exact H1.
  - intro H. destruct (H2 H) as [_ [Hl | [Hoff Htwo]]]; auto.
  - intro H. now destruct (H3 H) as (_ & _ & Hoff).
Qed.
End Navigation.

Section LoadFacts.
Context {P : Pandas}.

Lemma dict_set_fresh {V : Type} (k : string) (v : V) (d : Dict V) :
  ~ In k (dict_keys d) -> dict_set k v d = d ++ [(k, v)].
Proof.
  induction d as [|[k' v'] rest IH]; simpl; intro H; [reflexivity|].
  destruct (String.eqb_spec k' k) as [->|Hne]; [tauto|].
  rewrite IH; [reflexivity|tauto].
Qed.

(** With distinct keys the dictionary is the list of items, in order. *)
Lemma dict_of_nodup {V : Type} (items : list (string * V)) :
  NoDup (map fst items) -> dict_of items = items.
Proof.
  unfold dict_of.
  assert (G : forall d,
             NoDup (map fst items) ->
             (forall k, In k (map fst items) -> ~ In k (dict_keys d)) ->
             fold_left (fun d kv => dict_set (fst kv) (snd kv) d) items d
             = d ++ items).
  { induction items as [|[k v] rest IH]; simpl; intros d Hnd Hfresh.
    - now rewrite app_nil_r.
    - inversion Hnd as [|? ? Hk Hrest]; subst.
      rewrite dict_set_fresh by auto.
      rewrite IH; [now rewrite <- app_assoc|assumption|].
      intros k' Hin Hd. unfold dict_keys in Hd. rewrite map_app in Hd.
      apply in_app_or in Hd. destruct Hd as [Hd | [<- | []]].
      + exact (Hfresh k' (or_intror Hin) Hd).
      + contradiction. }
  intro H. apply (G [] H). intros k _ [].
Qed.

Lemma dict_set_not_empty {V : Type} (k : string) (v : V) (d : Dict V) :
  is_empty (dict_set k v d) = false.
Proof. destruct d as [|[k' v'] rest]; simpl; [reflexivity|].
  now destruct (String.eqb k' k). Qed.

Lemma is_empty_dict_of {V : Type} (items : list (string * V)) :
  is_empty (dict_of items) = is_empty items.
Proof.
  unfold dict_of. destruct items as [|[k v] rest]; [reflexivity|]. simpl.
  assert (G : forall (l : list (string * V)) d,
             is_empty d = false ->
             is_empty (fold_left (fun d kv => dict_set (fst kv) (snd kv) d) l d)
             = false).
  { induction l as [|kv l IH]; simpl; intros d Hd; [assumption|].
    apply IH, dict_set_not_empty. }
  now apply G.
Qed.

Lemma is_empty_loaded (sheets : list (string * DataFrame)) (n : nat) :
  is_empty (dict_of (combine (map fst sheets) (seq n (length sheets))))
  = is_empty sheets.
Proof. rewrite is_empty_dict_of. now destruct sheets. Qed.

(** On a reachable Upload page with an empty store no button is on screen. *)
Lemma empty_store_no_button (a : App) :
  reachable a -> step (app_session a) = 1%Z ->
  dataframes (app_session a) = [] -> offered a = [].
Proof.
  intros Hreach Hstep Hd. destruct (reachable_pages a Hreach) as (H1 & _).
  destruct (H1 Hstep) as [H | [_ H]]; [assumption|contradiction].
Qed.

Lemma turn_load_failed (a : App) (ui : Widgets) (f : UploadedFile)
  (e : PyExn) :
  step (app_session a) = 1%Z ->
  dataframes (app_session a) = [] ->
  ui_button ui = None ->
  ui_file ui = Some f ->
  read_sheets f = Raised e ->
  turn a ui = mkApp (app_session a) (app_heap a) [].
Proof.
  destruct a as [[n dfs fin] h off], ui. simpl.
  intros -> -> -> -> Hread. unfold turn, run_callback. cbn.
  unfold_script. rewrite load_excel_file_spec, Hread. reflexivity.
Qed.

(** X5: on the Upload page with an empty store, an upload that cannot be
    read changes nothing: the exception is caught, the session and the frames
    are as before and no "Next" button appears; the store is still empty, so
    a later readable upload is loaded. *)
Theorem load_failure_keeps_session (a : App) (ui : Widgets)
  (f : UploadedFile) (e : PyExn) :
  reachable a ->
  step (app_session a) = 1%Z ->
  dataframes (app_session a) = [] ->
  ui_file ui = Some f ->
  read_sheets f = Raised e ->
  react a ui = mkApp (app_session a) (app_heap a) []
  /\ forall (ui' : Widgets) (f' : UploadedFile) sheets,
       ui_file ui' = Some f' ->
       read_sheets f' = Returned sheets ->
       store_contents (react (react a ui) ui') = dict_of sheets.
Proof.
  intros Hreach Hstep Hd Hf Hread.
  pose proof (empty_store_no_button a Hreach Hstep Hd) as Hoff.
  destruct (accept_nothing_offered a ui Hoff) as [Hnone Hfile].
  rewrite Hf in Hfile.
  assert (Hfail : react a ui = mkApp (app_session a) (app_heap a) []).
  { unfold react. now apply (turn_load_failed a (accept a ui) f e). }
  split; [exact Hfail|].
  intros ui' f' sheets Hf' Hread'. rewrite Hfail. set (b := mkApp _ _ _).
  destruct (accept_nothing_offered b ui' eq_refl) as [Hnone' Hfile'].
  rewrite Hf' in Hfile'. unfold react.
  rewrite (turn_load b (accept b ui') f' sheets Hstep Hd Hnone' Hfile' Hread').
  apply store_contents_load.
Qed.

(** X6: the first readable upload on the Upload page fills the store with one
    table per sheet, keyed by sheet name (the workbook's sheets in their
    order when the names are distinct); the step and the final table are
    untouched, and "Next" appears exactly when the workbook has a sheet. *)
Theorem first_load_populates (a : App) (ui : Widgets) (f : UploadedFile)
  (sheets : list (string * DataFrame)) :
  reachable a ->
  step (app_session a) = 1%Z ->
  dataframes (app_session a) = [] ->
  ui_file ui = Some f ->
  read_sheets f = Returned sheets ->
  store_contents (react a ui) = dict_of sheets
  /\ (NoDup (map fst sheets) -> store_contents (react a ui) = sheets)
  /\ step (app_session (react a ui)) = 1%Z
  /\ final_df (app_session (react a ui)) = final_df (app_session a)
  /\ offered (react a ui)
     = if is_empty sheets then [] else [NextBuildRelationships].
Proof.
  intros Hreach Hstep Hd Hf Hread.
  pose proof (empty_store_no_button a Hreach Hstep Hd) as Hoff.
  destruct (accept_nothing_offered a ui Hoff) as [Hnone Hfile].
  rewrite Hf in Hfile. unfold react.
  rewrite (turn_load a (accept a ui) f sheets Hstep Hd Hnone Hfile Hread).
  rewrite is_empty_loaded, store_contents_load. cbn.
  repeat split. intro Hnd. now apply dict_of_nodup.
Qed.

Lemma turn_back (a : App) (ui : Widgets) :
  dataframes (app_session a) <> [] ->
  ui_button ui = Some BackButton ->
  turn a ui = mkApp (mkSession 1 (dataframes (app_session a))
                               (final_df (app_session a)))
                    (app_heap a)
                    (match ui_file ui with
                     | Some _ => [NextBuildRelationships]
                     | None => []
                     end).
Proof.
  destruct a as [[n dfs fin] h off], ui as [file ls rs lo ro how btn]. simpl.
  intros Hne ->. destruct dfs as [|kv dfs]; [contradiction|].
  unfold turn, run_callback. cbn. unfold_script.
  destruct file; reflexivity.
Qed.

(** X7: "Back" on the Relate page only sets the step to 1: the store, its
    tables and a final table already set are all kept. *)
Theorem back_keeps_tables (a : App) (ui : Widgets) :
  reachable a ->
  In BackButton (offered a) ->
  ui_button ui = Some BackButton ->
  app_session (react a ui)
  = mkSession 1 (dataframes (app_session a)) (final_df (app_session a))
  /\ app_heap (react a ui) = app_heap a
  /\ store_contents (react a ui) = store_contents a
  /\ final_table (react a ui) = final_table a.
Proof.
  intros Hreach Hoff Hb.
  destruct (reachable_ok a Hreach) as (Hvalid & _).
  destruct (reachable_pages a Hreach) as (H1 & H2 & H3).
  assert (Hne : dataframes (app_session a) <> []).
  { destruct Hvalid as [Hs | [Hs | Hs]].
    - destruct (H1 Hs) as [E | [E _]]; rewrite E in Hoff; simpl in Hoff;
        intuition discriminate.
    - now destruct (H2 Hs).
    - now destruct (H3 Hs). }
  unfold react. rewrite (accept_offered a ui BackButton Hb Hoff).
  rewrite (turn_back a ui Hne Hb). unfold store_contents, final_table. cbn.
  auto.
Qed.
End LoadFacts.

Section Persistence.
Context {P : Pandas}.

(** The Relate page of a one-sheet store, turn after turn. *)
Lemma single_sheet_stuck (s : SessionState) (h : Heap) (k : string) (r : Ref)
  (ui : Widgets) :
  step s = 2%Z -> dataframes s = [(k, r)] ->
  react (mkApp s h []) ui = mkApp s h [].
Proof.
  intros Hs Hd.
  destruct (accept_nothing_offered (mkApp s h []) ui eq_refl) as [Hnone _].
  unfold react, turn. cbn [app_session app_heap].
  rewrite run_callback_spec, Hnone. cbv beta iota zeta.
  replace (mkSession (step s) (dataframes s) (final_df s)) with s
    by now destruct s.
  now rewrite (single_sheet_relate_raises s h _ k r Hs Hd).
Qed.

(** X8: with a one-sheet workbook, "Next" leads to a Relate page that raises
    before it draws any button (the right select box is empty and its [None]
    is looked up in the store); from then on no user action changes the
    session or brings a button back. *)
Theorem single_sheet_dead_end (a : App) (ui : Widgets) (k : string)
  (r : Ref) :
  dataframes (app_session a) = [(k, r)] ->
  In NextBuildRelationships (offered a) ->
  ui_button ui = Some NextBuildRelationships ->
  react a ui = mkApp (mkSession 2 [(k, r)] (final_df (app_session a)))
                     (app_heap a) []
  /\ forall uis, run (react a ui) uis = react a ui.
Proof.
  intros Hd Hoff Hb.
  assert (Hgo : react a ui
                = mkApp (mkSession 2 [(k, r)] (final_df (app_session a)))
                        (app_heap a) []).
  { unfold react. rewrite (accept_offered a ui _ Hb Hoff).
    unfold turn. rewrite run_callback_spec, Hb, Hd. cbv beta iota zeta.
    now rewrite (single_sheet_relate_raises
                   (mkSession 2 [(k, r)] (final_df (app_session a)))
                   (app_heap a) ui k r eq_refl eq_refl). }
  split; [exact Hgo|]. rewrite Hgo.
  induction uis as [|u uis IH]; simpl; [reflexivity|].
  now rewrite (single_sheet_stuck
                 (mkSession 2 [(k, r)] (final_df (app_session a)))
                 (app_heap a) k r u eq_refl eq_refl).
Qed.

(** X9: a populated store is never replaced or edited: after any turn it
    shows the same sheets with the same tables, unless the turn was "Start
    Over" on the Visualize page, which empties it. *)
Theorem only_start_over_clears (a : App) (ui : Widgets) :
  reachable a ->
  dataframes (app_session a) <> [] ->
  store_contents (react a ui) = store_contents a
  \/ (ui_button ui = Some StartOver
      /\ step (app_session a) = 3%Z
      /\ store_contents (react a ui) = []).
Proof.
  intros Hreach Hne.
  destruct (reachable_ok a Hreach) as (_ & [Hrefs _] & _).
  pose proof (react_action a ui (proj1 (reachable_ok a Hreach))
                (reachable_pages a Hreach)) as [_ Hact].
  assert (Hkeep : forall ext,
             dataframes (app_session (react a ui)) = dataframes (app_session a) ->
             app_heap (react a ui) = app_heap a ++ ext ->
             store_contents (react a ui) = store_contents a).
  { intros ext Hd Hh. destruct (react a ui) as [s' h' off'], a as [s h off].
    simpl in *. subst h'. now apply store_contents_app. }
  destruct Hact as [Hs Hh | f sheets _ H0 _ _ _ _ | _ _ Hs Hh | _ _ Hs Hh
                   | _ _ _ Hs Hh | df _ _ _ Hs Hh | l lr _ _ _ _ _ Hs Hh
                   | Hb H3 Hs _].
  - left. apply (Hkeep []); [now rewrite Hs | now rewrite app_nil_r].
  - contradiction.
  - left. apply (Hkeep []); [now rewrite Hs | now rewrite app_nil_r].
  - left. apply (Hkeep []); [now rewrite Hs | now rewrite app_nil_r].
  - left. apply (Hkeep []); [now rewrite Hs | now rewrite app_nil_r].
  - left. apply (Hkeep [df]); [now rewrite Hs | assumption].
  - left. apply (Hkeep []); [now rewrite Hs | now rewrite app_nil_r].
  - right. repeat split; try assumption.
    unfold store_contents. now rewrite Hs.
Qed.

(** X10: the final table changes only on a press of "Merge Sheets", of the
    skip button or of "Start Over", and once it is set only "Start Over"
    unsets it: navigating back and forth keeps it. *)
Theorem final_table_changes (a : App) (ui : Widgets) :
  reachable a ->
  (final_df (app_session (react a ui)) = final_df (app_session a)
   \/ ui_button ui = Some MergeSheets
   \/ ui_button ui = Some SkipMerge
   \/ ui_button ui = Some StartOver)
  /\ (final_df (app_session a) <> None ->
      final_df (app_session (react a ui)) = None ->
      ui_button ui = Some StartOver /\ step (app_session a) = 3%Z).
Proof.
  intro Hreach.
  pose proof (react_action a ui (proj1 (reachable_ok a Hreach))
                (reachable_pages a Hreach)) as [_ Hact].
  destruct Hact as [Hs _ | f sheets _ _ _ _ Hs _ | _ _ Hs _ | _ _ Hs _
                   | _ _ _ Hs _ | df Hb _ _ Hs _ | l lr Hb _ _ _ _ Hs _
                   | Hb H3 Hs _];
    rewrite Hs; cbn; split; auto; intros Hset Hnone;
    try contradiction; try discriminate.
Qed.
End Persistence.

Section Exceptions.
Context {P : Pandas}.

(** X11: the only exception that leaves the script is the [KeyError] of the
    Relate page when the store has fewer than two sheets; it is raised before
    anything is written or drawn. Whatever the spreadsheet reader and
    [pd.merge] raise is caught by the two handlers and never escapes. *)
Theorem script_raises_only_on_lookup (s : SessionState) (h : Heap)
  (ui : Widgets) :
  valid_step (step s) ->
  (forall e w,
     main (mkWorld s h ui [] false) = Uncaught e w ->
     e = KeyError /\ w = mkWorld s h ui [] false
     /\ step s = 2%Z /\ ~ two_sheets s)
  /\ (step s = 2%Z -> ~ two_sheets s ->
      main (mkWorld s h ui [] false)
      = Uncaught KeyError (mkWorld s h ui [] false)).
Proof.
  destruct s as [n dfs fin], ui. unfold valid_step, two_sheets. cbn.
  intros [-> | [-> | ->]]; (split; [intros e w | intros Hs Hnot]);
    try discriminate; unfold_script; script_cases;
    try no_such_branch; try reflexivity; try discriminate.
  all: try (intro E; inversion E; subst; repeat split; eauto with pages).
  all: try solve [exfalso; apply Hnot; eauto with pages].
Qed.
End Exceptions.

Section Reruns.
Context {P : Pandas}.

(** The two runs that end in [st.rerun()]. *)
Lemma main_rerun_cases (s : SessionState) (h : Heap) (ui : Widgets)
  (w : World) :
  main (mkWorld s h ui [] false) = Rerun w ->
  (ui_button ui = Some SkipMerge /\ step s = 2%Z
   /\ exists lr, session w = mkSession 3 (dataframes s) (Some lr))
  \/ (ui_button ui = Some StartOver /\ step s = 3%Z
      /\ session w = mkSession 1 [] None).
Proof.
  destruct s as [n dfs fin], ui as [file ls rs lo ro how btn]. cbn.
  destruct (Z.eq_dec n 1) as [-> | N1];
    [| destruct (Z.eq_dec n 2) as [-> | N2];
       [| destruct (Z.eq_dec n 3) as [-> | N3]]].
  4:{ unfold_script.
      assert (E1 : (1 =? n)%Z = false) by (apply Z.eqb_neq; congruence).
      assert (E2 : (2 =? n)%Z = false) by (apply Z.eqb_neq; congruence).
      assert (E3 : (3 =? n)%Z = false) by (apply Z.eqb_neq; congruence).
      change (match n with Z.pos q => (1 =? q)%positive | _ => false end)
        with (1 =? n)%Z.
      change (match n with Z.pos q => (2 =? q)%positive | _ => false end)
        with (2 =? n)%Z.
      change (match n with Z.pos q => (3 =? q)%positive | _ => false end)
        with (3 =? n)%Z.
      rewrite E1, E2, E3. discriminate. }
  all: intro E; revert E; destruct btn as [[]|]; unfold_script; script_cases;
    try discriminate; intro E; inversion E; subst; clear E; cbn; eauto 7.
Qed.

(** X12: the script asks for a rerun only in the run of a skip press on the
    Relate page or of a "Start Over" press on the Visualize page, and the run
    that follows, which carries no press, always ends normally: there is no
    rerun loop. *)
Theorem rerun_completes (s : SessionState) (h : Heap) (ui : Widgets)
  (w : World) :
  main (mkWorld s h ui [] false) = Rerun w ->
  ((ui_button ui = Some SkipMerge /\ step s = 2%Z /\ step (session w) = 3%Z)
   \/ (ui_button ui = Some StartOver /\ step s = 3%Z
       /\ step (session w) = 1%Z))
  /\ exists w',
       main (mkWorld (session w) (heap w) no_widgets [] false) = Done tt w'.
Proof.
  intro E. apply main_rerun_cases in E.
  destruct E as [(Hb & Hs & lr & Hw) | (Hb & Hs & Hw)]; rewrite Hw; cbn.
  - split; [auto|]. unfold_script. eauto.
  - split; [auto|]. unfold_script. eauto.
Qed.
End Reruns.

Section Rerender.
Context {P : Pandas}.

Lemma accept_no_press (a : App) (ui : Widgets) :
  ui_button ui = None -> accept a ui = ui.
Proof. intro H. unfold accept. now rewrite H. Qed.

(** A run without a press either writes nothing or is the load of the
    Upload page. *)
Lemma quiet_turn (s : SessionState) (h : Heap) (off : list Button)
  (ui : Widgets) :
  ui_button ui = None ->
  (exists rd, turn (mkApp s h off) ui = mkApp s h rd)
  \/ (step s = 1%Z /\ dataframes s = []
      /\ exists f sheets,
           ui_file ui = Some f /\ read_sheets f = Returned sheets).
Proof.
  destruct s as [n dfs fin], ui as [file ls rs lo ro how btn]. cbn.
  intros ->. unfold turn, run_callback. cbn.
  destruct (Z.eq_dec n 1) as [-> | N1];
    [| destruct (Z.eq_dec n 2) as [-> | N2];
       [| destruct (Z.eq_dec n 3) as [-> | N3]]].
  4:{ left. unfold_script.
      assert (E1 : (1 =? n)%Z = false) by (apply Z.eqb_neq; congruence).
      assert (E2 : (2 =? n)%Z = false) by (apply Z.eqb_neq; congruence).
      assert (E3 : (3 =? n)%Z = false) by (apply Z.eqb_neq; congruence).
      change (match n with Z.pos q => (1 =? q)%positive | _ => false end)
        with (1 =? n)%Z.
      change (match n with Z.pos q => (2 =? q)%positive | _ => false end)
        with (2 =? n)%Z.
      change (match n with Z.pos q => (3 =? q)%positive | _ => false end)
        with (3 =? n)%Z.
      rewrite E1, E2, E3. unfold settle. cbn. eauto. }
  - destruct file as [f|]; [|left; unfold_script; unfold settle; cbn; eauto].
    destruct dfs as [|kv dfs]; [|left; unfold_script; unfold settle; cbn; eauto].
    destruct (read_sheets f) as [sheets|e] eqn:Hread.
    + right. eauto 6.
    + left. unfold_script. rewrite load_excel_file_spec, Hread.
      unfold settle. cbn. eauto.
  - left. unfold_script. script_cases; unfold settle; cbn; eauto.
  - left. unfold_script. script_cases; unfold settle; cbn; eauto.
Qed.

Lemma turn_upload_populated (a : App) (ui : Widgets) (f : UploadedFile) :
  step (app_session a) = 1%Z ->
  dataframes (app_session a) <> [] ->
  ui_button ui = None ->
  ui_file ui = Some f ->
  turn a ui = mkApp (app_session a) (app_heap a) [NextBuildRelationships].
Proof.
  destruct a as [[n dfs fin] h off], ui as [file ls rs lo ro how btn]. cbn.
  intros -> Hne -> ->. destruct dfs as [|kv dfs]; [contradiction|].
  unfold turn, run_callback. cbn. unfold_script. reflexivity.
Qed.

(** X13: drawing the page again changes nothing: a run without a button
    press, repeated with the same widget values, leaves the session, the
    frames and the buttons exactly as the first run left them. *)
Theorem rerender_is_idempotent (a : App) (ui : Widgets) :
  ui_button ui = None ->
  react (react a ui) ui = react a ui.
Proof.
  intro Hb. unfold react. rewrite !(accept_no_press _ ui Hb).
  destruct a as [s h off].
  destruct (quiet_turn s h off ui Hb)
    as [[rd Hq] | (Hs & Hd & f & sheets & Hf & Hread)].
  - rewrite Hq. exact Hq.
  - pose proof (is_empty_loaded sheets (length h)) as Hemp.
    rewrite (turn_load (mkApp s h off) ui f sheets Hs Hd Hb Hf Hread).
    cbn [app_session app_heap final_df] in *.
    destruct (is_empty (dict_of (combine (map fst sheets)
                                   (seq (length h) (length sheets))))) eqn:El.
    + symmetry in Hemp. apply is_empty_true in Hemp. subst sheets.
      match goal with
      | |- turn ?b ui = _ =>
          rewrite (turn_load b ui f [] eq_refl eq_refl Hb Hf Hread)
      end.
      cbn. now rewrite !app_nil_r.
    + match goal with
      | |- turn ?b ui = _ =>
          apply (turn_upload_populated b ui f eq_refl); try assumption
      end.
      cbn. now apply not_empty_false.
Qed.
End Rerender.

Section NoSelfJoin.
Context {P : Pandas}.

Lemma dict_set_values_nodup (k : string) (v : Ref) (d : Dict Ref) :
  NoDup (map snd d) -> ~ In v (map snd d) -> NoDup (map snd (dict_set k v d)).
Proof.
  induction d as [|[k' v'] rest IH]; simpl; intros Hnd Hv.
  - constructor; [tauto|constructor].
  - inversion Hnd as [|? ? Hhead Htail]; subst.
    destruct (String.eqb k' k); simpl.
    + constructor; tauto.
    + constructor; [|apply IH; tauto].
      intro Hin. apply dict_set_values in Hin. destruct Hin; [|tauto].
      subst. tauto.
Qed.

Lemma nodup_app_disjoint {A : Type} (l l' : list A) (x : A) :
  NoDup (l ++ l') -> In x l -> ~ In x l'.
Proof.
  induction l as [|y l IH]; simpl; intros Hnd Hin; [contradiction|].
  inversion Hnd as [|? ? Hy Hrest]; subst.
  destruct Hin as [-> | Hin]; [|now apply IH].
  intro Hx. apply Hy, in_or_app. now right.
Qed.

(** Distinct references stay distinct when the dictionary is built. *)
Lemma dict_of_values_nodup (items : list (string * Ref)) :
  NoDup (map snd items) -> NoDup (map snd (dict_of items)).
Proof.
  unfold dict_of.
  assert (G : forall d,
             NoDup (map snd d ++ map snd items) ->
             NoDup (map snd (fold_left
                               (fun d kv => dict_set (fst kv) (snd kv) d)
                               items d))).
  { induction items as [|[k v] rest IH]; simpl; intros d Hnd.
    - now rewrite app_nil_r in Hnd.
    - apply IH.
      assert (Hv : ~ In v (map snd d) /\ ~ In v (map snd rest)).
      { apply NoDup_remove_2 in Hnd. split; intro H; apply Hnd, in_or_app; auto. }
      apply NoDup_remove_1 in Hnd.
      pose proof (NoDup_app_remove_r _ _ Hnd) as Hd.
      pose proof (NoDup_app_remove_l _ _ Hnd) as Hrest.
      apply NoDup_app; try assumption.
      + apply dict_set_values_nodup; tauto.
      + intros x Hx Hx'. apply dict_set_values in Hx. destruct Hx as [-> | Hx].
        * tauto.
        * exact (nodup_app_disjoint _ _ x Hnd Hx Hx'). }
  intro H. apply (G []). exact H.
Qed.

Lemma loaded_refs_nodup (names : list string) (start n : nat) :
  NoDup (map snd (dict_of (combine names (seq start n)))).
Proof.
  apply dict_of_values_nodup.
  assert (G : forall (l : list string) (rs : list nat),
             NoDup rs -> NoDup (map snd (combine l rs))).
  { induction l as [|x l IH]; intros [|r rs] Hnd; simpl; try constructor.
    - inversion Hnd; subst. intro Hin. apply in_map_iff in Hin.
      destruct Hin as ([k r'] & E & Hin). simpl in E. subst r'.
      apply in_combine_r in Hin. contradiction.
    - inversion Hnd; subst. now apply IH. }
  apply G, seq_NoDup.
Qed.

Lemma nodup_values_key (d : Dict Ref) (k1 k2 : string) (v : Ref) :
  NoDup (map snd d) -> In (k1, v) d -> In (k2, v) d -> k1 = k2.
Proof.
  induction d as [|[k x] rest IH]; simpl; [tauto|].
  intros Hnd H1 H2. inversion Hnd as [|? ? Hhead Htail]; subst.
  destruct H1 as [E1 | H1], H2 as [E2 | H2].
  - congruence.
  - inversion E1; subst. exfalso. apply Hhead.
    apply (in_map snd) in H2. exact H2.
  - inversion E2; subst. exfalso. apply Hhead.
    apply (in_map snd) in H1. exact H1.
  - now apply IH.
Qed.

(** In a reachable session no two sheet names share a frame. *)
Lemma store_refs_distinct (a : App) :
  reachable a -> NoDup (map snd (dataframes (app_session a))).
Proof.
  induction 1 as [|a ui Hreach IH]; [constructor|].
  destruct (reachable_action a ui Hreach)
    as [Hs _ | f sheets _ _ _ _ Hs _ | _ _ Hs _ | _ _ Hs _ | _ _ _ Hs _
       | df _ _ _ Hs _ | l lr _ _ _ _ _ Hs _ | _ _ Hs _];
    rewrite Hs; cbn; try assumption.
  - apply loaded_refs_nodup.
  - constructor.
Qed.

(** X14: a press of "Merge Sheets" never joins a table with itself: the two
    select boxes resolve to two different sheet names of the store, and
    these denote two different frames. *)
Theorem merge_never_self_join (a : App) (ui : Widgets) :
  reachable a ->
  In MergeSheets (offered a) ->
  exists l r lr rr,
    selected_left a ui = Some l
    /\ selected_right a ui = Some r
    /\ dict_get l (dataframes (app_session a)) = Some lr
    /\ dict_get r (dataframes (app_session a)) = Some rr
    /\ l <> r /\ lr <> rr.
Proof.
  intros Hreach Hoff.
  destruct (reachable_ok a Hreach) as (_ & _ & _ & Hmerge & _).
  destruct (Hmerge Hoff) as (_ & Htwo).
  destruct (relate_resolves a ui Htwo)
    as (l & lr & r & rr & Hl & Hlr & Hr & Hrr & Hne).
  exists l, r, lr, rr. repeat split; try assumption.
  intros ->. apply Hne.
  apply dict_get_in in Hlr, Hrr.
  exact (nodup_values_key _ l r rr (store_refs_distinct a Hreach) Hlr Hrr).
Qed.
End NoSelfJoin.

(* ================================================================== *)
(** * The claims on a sample session *)

#[local] Existing Instance spec_pandas.

Lemma relate_app_reachable : reachable relate_app.
Proof. apply reachable_run, reach_start. Qed.

Lemma merged_app_reachable : reachable merged_app.
Proof. apply reach_react, relate_app_reachable. Qed.

Lemma visualize_app_reachable : reachable visualize_app.
Proof. apply reach_react, merged_app_reachable. Qed.

Lemma right_options_exclude_left_witness :
  mem "Orders"
      (right_sheet_options (dict_keys (dataframes (app_session relate_app)))
                           (selected_left relate_app good_merge)) = false
  /\ selected_right relate_app good_merge <> Some "Orders".
Proof.
  apply (right_options_exclude_left (P := spec_pandas) relate_app good_merge
                                    "Orders").
  reflexivity.
Defined.

Lemma step_in_range_witness :
  valid_step (step (app_session relate_app))
  /\ exists percent,
       progress_getitem (P := spec_pandas) (step (app_session relate_app))
       = ret percent.
Proof.
  apply (step_in_range (P := spec_pandas) relate_app).
  exact relate_app_reachable.
Defined.

Lemma second_load_is_noop_witness :
  store_contents (react uploaded_app (upload (P := spec_pandas) None))
  = store_contents uploaded_app
  /\ dataframes (app_session
                   (react uploaded_app (upload (P := spec_pandas) None)))
     = dataframes (app_session uploaded_app)
  /\ app_heap (react uploaded_app (upload (P := spec_pandas) None))
     = app_heap uploaded_app.
Proof.
  apply (second_load_is_noop (P := spec_pandas) uploaded_app).
  - reflexivity.
  - vm_compute. discriminate.
Defined.

Lemma skip_uses_left_table_witness :
  exists l lr,
    selected_left relate_app (press (P := spec_pandas) SkipMerge) = Some l
    /\ dict_get l (dataframes (app_session relate_app)) = Some lr
    /\ final_df (app_session (react relate_app (press SkipMerge))) = Some lr
    /\ final_table (react relate_app (press SkipMerge))
       = table_of relate_app (Some l)
    /\ step (app_session (react relate_app (press SkipMerge))) = 3%Z
    /\ dataframes (app_session (react relate_app (press SkipMerge)))
       = dataframes (app_session relate_app)
    /\ app_heap (react relate_app (press SkipMerge)) = app_heap relate_app.
Proof.
  apply (skip_uses_left_table (P := spec_pandas) relate_app (press SkipMerge)).
  - exact relate_app_reachable.
  - vm_compute. auto.
  - reflexivity.
Defined.

Lemma start_over_resets_witness :
  store_contents (react visualize_app (press (P := spec_pandas) StartOver)) = []
  /\ dataframes (app_session (react visualize_app (press StartOver))) = []
  /\ final_df (app_session (react visualize_app (press StartOver))) = None
  /\ step (app_session (react visualize_app (press StartOver))) = 1%Z
  /\ forall (ui' : Widgets) (f : UploadedFile) sheets,
       ui_file ui' = Some f ->
       read_sheets f = Returned sheets ->
       store_contents (react (react visualize_app (press StartOver)) ui')
       = dict_of sheets.
Proof.
  apply (start_over_resets (P := spec_pandas) visualize_app (press StartOver)).
  - exact visualize_app_reachable.
  - vm_compute. auto.
  - reflexivity.
Defined.

Lemma merge_failure_keeps_session_witness :
  app_session (react relate_app bad_merge) = app_session relate_app
  /\ final_table (react relate_app bad_merge) = final_table relate_app
  /\ step (app_session (react relate_app bad_merge)) = 2%Z
  /\ app_heap (react relate_app bad_merge) = app_heap relate_app
  /\ In MergeSheets (offered (react relate_app bad_merge)).
Proof.
  apply (merge_failure_keeps_session (P := spec_pandas) relate_app bad_merge
                                     ValueError).
  - exact relate_app_reachable.
  - vm_compute. auto.
  - reflexivity.
  - reflexivity.
Defined.

(** C2 as stated fails: after one successful merge the final table is set,
    and a second merge that raises leaves it set, not unset. *)
Lemma merge_failure_final_not_unset :
  reachable merged_app
  /\ step (app_session merged_app) = 2%Z
  /\ In MergeSheets (offered merged_app)
  /\ merge_attempt merged_app bad_merge = Some (Raised ValueError)
  /\ final_df (app_session (react merged_app bad_merge)) = Some 2%nat
  /\ final_df (app_session (react merged_app bad_merge)) <> None.
Proof.
  split; [exact merged_app_reachable|].
  vm_compute. repeat split; auto. discriminate.
Qed.

Lemma merge_leaves_store_witness :
  store_contents (react relate_app good_merge) = store_contents relate_app
  /\ dataframes (app_session (react relate_app good_merge))
     = dataframes (app_session relate_app)
  /\ (forall r, (r < length (app_heap relate_app))%nat ->
                deref (app_heap (react relate_app good_merge)) r
                = deref (app_heap relate_app) r)
  /\ (forall r name,
        final_df (app_session (react relate_app good_merge)) = Some r ->
        final_df (app_session (react relate_app good_merge))
        <> final_df (app_session relate_app) ->
        dict_get name (dataframes (app_session relate_app)) <> Some r).
Proof.
  apply (merge_leaves_store (P := spec_pandas) relate_app good_merge).
  - exact relate_app_reachable.
  - vm_compute. auto.
  - reflexivity.
Defined.

Lemma merge_success_stays_in_relate_witness :
  final_table (react relate_app good_merge)
  = Some (mkDataFrame ["id"; "a"; "b"] [[VNum 1; VText "x"; VText "p"]])
  /\ step (app_session (react relate_app good_merge)) = 2%Z
  /\ In NextVisualize (offered (react relate_app good_merge))
  /\ step (app_session (react (react relate_app good_merge)
                              (press NextVisualize))) = 3%Z
  /\ final_table (react (react relate_app good_merge) (press NextVisualize))
     = Some (mkDataFrame ["id"; "a"; "b"] [[VNum 1; VText "x"; VText "p"]])
  /\ forall (ui' : Widgets) (df' : DataFrame),
       ui_button ui' = Some MergeSheets ->
       merge_attempt (react relate_app good_merge) ui' = Some (Returned df') ->
       final_table (react (react relate_app good_merge) ui') = Some df'
       /\ step (app_session (react (react relate_app good_merge) ui')) = 2%Z.
Proof.
  apply (merge_success_stays_in_relate (P := spec_pandas) relate_app
                                       good_merge).
  - exact relate_app_reachable.
  - vm_compute. auto.
  - reflexivity.
  - reflexivity.
Defined.

(* ================================================================== *)
(** * Pages and navigation on the sample sessions *)

Lemma turn_is_one_action_witness :
  action relate_app good_merge (react relate_app good_merge).
Proof.
  apply (turn_is_one_action relate_app good_merge).
  exact relate_app_reachable.
Defined.

Lemma step_edges_witness :
  step (app_session (react relate_app (press SkipMerge)))
  = step (app_session relate_app)
  \/ (step (app_session relate_app) = 1%Z
      /\ step (app_session (react relate_app (press SkipMerge))) = 2%Z
      /\ ui_button (press SkipMerge) = Some NextBuildRelationships)
  \/ (step (app_session relate_app) = 2%Z
      /\ step (app_session (react relate_app (press SkipMerge))) = 1%Z
      /\ ui_button (press SkipMerge) = Some BackButton)
  \/ (step (app_session relate_app) = 2%Z
      /\ step (app_session (react relate_app (press SkipMerge))) = 3%Z
      /\ (ui_button (press SkipMerge) = Some SkipMerge
          \/ ui_button (press SkipMerge) = Some NextVisualize))
  \/ (step (app_session relate_app) = 3%Z
      /\ step (app_session (react relate_app (press SkipMerge))) = 1%Z
      /\ ui_button (press SkipMerge) = Some StartOver).
Proof.
  apply (step_edges relate_app (press SkipMerge)).
  exact relate_app_reachable.
Defined.

Lemma pages_have_data_witness :
  (step (app_session visualize_app) = 2%Z
   \/ step (app_session visualize_app) = 3%Z ->
   dataframes (app_session visualize_app) <> [])
  /\ (step (app_session visualize_app) = 3%Z ->
      exists df, final_table visualize_app = Some df).
Proof.
  apply (pages_have_data visualize_app).
  exact visualize_app_reachable.
Defined.

Lemma buttons_by_page_witness :
  (step (app_session relate_app) = 1%Z ->
   offered relate_app = []
   \/ (offered relate_app = [NextBuildRelationships]
       /\ dataframes (app_session relate_app) <> []))
  /\ (step (app_session relate_app) = 2%Z ->
      (offered relate_app = [] /\ ~ two_sheets (app_session relate_app))
      \/ (two_sheets (app_session relate_app)
          /\ offered relate_app
             = [MergeSheets; BackButton;
                match final_df (app_session relate_app) with
                | None => SkipMerge
                | Some _ => NextVisualize
                end]))
  /\ (step (app_session relate_app) = 3%Z -> offered relate_app = [StartOver]).
Proof.
  apply (buttons_by_page relate_app).
  exact relate_app_reachable.
Defined.

Lemma load_failure_keeps_session_witness :
  react initial_app unreadable_upload
  = mkApp (app_session initial_app) (app_heap initial_app) []
  /\ forall (ui' : Widgets) (f' : UploadedFile) sheets,
       ui_file ui' = Some f' ->
       read_sheets f' = Returned sheets ->
       store_contents (react (react initial_app unreadable_upload) ui')
       = dict_of sheets.
Proof.
  apply (load_failure_keeps_session initial_app unreadable_upload
                                    unreadable_file ExcelError).
  - exact reach_start.
  - reflexivity.
  - reflexivity.
  - reflexivity.
  - reflexivity.
Defined.

Lemma first_load_populates_witness :
  store_contents (react initial_app (upload sample_workbook))
  = dict_of [("Orders", example_left); ("Customers", example_right)]
  /\ (NoDup (map fst [("Orders", example_left); ("Customers", example_right)])
      -> store_contents (react initial_app (upload sample_workbook))
         = [("Orders", example_left); ("Customers", example_right)])
  /\ step (app_session (react initial_app (upload sample_workbook))) = 1%Z
  /\ final_df (app_session (react initial_app (upload sample_workbook)))
     = final_df (app_session initial_app)
  /\ offered (react initial_app (upload sample_workbook))
     = if is_empty [("Orders", example_left); ("Customers", example_right)]
       then [] else [NextBuildRelationships].
Proof.
  apply (first_load_populates initial_app (upload sample_workbook)
                              sample_workbook).
  - exact reach_start.
  - reflexivity.
  - reflexivity.
  - reflexivity.
  - reflexivity.
Defined.

Lemma back_keeps_tables_witness :
  app_session (react merged_app (press BackButton))
  = mkSession 1 (dataframes (app_session merged_app))
              (final_df (app_session merged_app))
  /\ app_heap (react merged_app (press BackButton)) = app_heap merged_app
  /\ store_contents (react merged_app (press BackButton))
     = store_contents merged_app
  /\ final_table (react merged_app (press BackButton))
     = final_table merged_app.
Proof.
  apply (back_keeps_tables merged_app (press BackButton)).
  - exact merged_app_reachable.
  - vm_compute. auto.
  - reflexivity.
Defined.

Lemma single_sheet_dead_end_witness :
  react single_uploaded_app (press NextBuildRelationships)
  = mkApp (mkSession 2 [("Only", 0%nat)]
                     (final_df (app_session single_uploaded_app)))
          (app_heap single_uploaded_app) []
  /\ forall uis,
       run (react single_uploaded_app (press NextBuildRelationships)) uis
       = react single_uploaded_app (press NextBuildRelationships).
Proof.
  apply (single_sheet_dead_end single_uploaded_app
                               (press NextBuildRelationships) "Only" 0%nat).
  - reflexivity.
  - vm_compute. auto.
  - reflexivity.
Defined.

Lemma only_start_over_clears_witness :
  store_contents (react visualize_app (press StartOver))
  = store_contents visualize_app
  \/ (ui_button (press StartOver) = Some StartOver
      /\ step (app_session visualize_app) = 3%Z
      /\ store_contents (react visualize_app (press StartOver)) = []).
Proof.
  apply (only_start_over_clears visualize_app (press StartOver)).
  - exact visualize_app_reachable.
  - vm_compute. discriminate.
Defined.

Lemma final_table_changes_witness :
  (final_df (app_session (react merged_app (press BackButton)))
   = final_df (app_session merged_app)
   \/ ui_button (press BackButton) = Some MergeSheets
   \/ ui_button (press BackButton) = Some SkipMerge
   \/ ui_button (press BackButton) = Some StartOver)
  /\ (final_df (app_session merged_app) <> None ->
      final_df (app_session (react merged_app (press BackButton))) = None ->
      ui_button (press BackButton) = Some StartOver
      /\ step (app_session merged_app) = 3%Z).
Proof.
  apply (final_table_changes merged_app (press BackButton)).
  exact merged_app_reachable.
Defined.

Lemma script_raises_only_on_lookup_witness :
  (forall e w,
     main (mkWorld (mkSession 2 [("Only", 0%nat)] None) [example_left]
                   no_widgets [] false) = Uncaught e w ->
     e = KeyError
     /\ w = mkWorld (mkSession 2 [("Only", 0%nat)] None) [example_left]
                    no_widgets [] false
     /\ step (mkSession 2 [("Only", 0%nat)] None) = 2%Z
     /\ ~ two_sheets (mkSession 2 [("Only", 0%nat)] None))
  /\ (step (mkSession 2 [("Only", 0%nat)] None) = 2%Z ->
      ~ two_sheets (mkSession 2 [("Only", 0%nat)] None) ->
      main (mkWorld (mkSession 2 [("Only", 0%nat)] None) [example_left]
                    no_widgets [] false)
      = Uncaught KeyError
          (mkWorld (mkSession 2 [("Only", 0%nat)] None) [example_left]
                   no_widgets [] false)).
Proof.
  apply (script_raises_only_on_lookup
           (mkSession 2 [("Only", 0%nat)] None) [example_left] no_widgets).
  right. left. reflexivity.
Defined.

Lemma rerun_completes_witness :
  ((ui_button (press SkipMerge) = Some SkipMerge
    /\ step (app_session relate_app) = 2%Z
    /\ step (session
               (final_world
                  (main (mkWorld (app_session relate_app)
                                 (app_heap relate_app)
                                 (press SkipMerge) [] false)))) = 3%Z)
   \/ (ui_button (press SkipMerge) = Some StartOver
       /\ step (app_session relate_app) = 3%Z
       /\ step (session
                  (final_world
                     (main (mkWorld (app_session relate_app)
                                    (app_heap relate_app)
                                    (press SkipMerge) [] false)))) = 1%Z))
  /\ exists w',
       main (mkWorld
               (session
                  (final_world
                     (main (mkWorld (app_session relate_app)
                                    (app_heap relate_app)
                                    (press SkipMerge) [] false))))
               (heap
                  (final_world
                     (main (mkWorld (app_session relate_app)
                                    (app_heap relate_app)
                                    (press SkipMerge) [] false))))
               no_widgets [] false)
       = Done tt w'.
Proof.
  apply (rerun_completes (app_session relate_app) (app_heap relate_app)
                         (press SkipMerge)).
  reflexivity.
Defined.

Lemma rerender_is_idempotent_witness :
  react (react relate_app no_widgets) no_widgets = react relate_app no_widgets.
Proof.
  apply (rerender_is_idempotent relate_app no_widgets).
  reflexivity.
Defined.

Lemma merge_never_self_join_witness :
  exists l r lr rr,
    selected_left relate_app good_merge = Some l
    /\ selected_right relate_app good_merge = Some r
    /\ dict_get l (dataframes (app_session relate_app)) = Some lr
    /\ dict_get r (dataframes (app_session relate_app)) = Some rr
    /\ l <> r /\ lr <> rr.
Proof.
  apply (merge_never_self_join relate_app good_merge).
  - exact relate_app_reachable.
  - vm_compute. auto.
Defined.
